(** * ezweb: the URL utilities of [ezweb/utils/http.py] and the heuristic
    extractors of [ezweb/utils/souphelper.py], embedded as Rocq functions.

    Python values are modelled as follows.
    - [str] is a list of Unicode code points ([list N]); [py] turns an ASCII
      literal into such a list.
    - A call that may raise returns [res A]: [Ok a] or [Raise e].
    - [None] is [None] of [option].
    - A [dict] is a [gmap]; a [list] is a [list].
    - The parsed tree of BeautifulSoup is the inductive type [node]. *)

From Stdlib Require Import String Ascii NArith ZArith List Lia Bool.
From stdpp Require Import base option list gmap fin_maps.

Abbreviation str := (list N).

(** ** Python strings *)

Module PyStr.

Fixpoint py (s : string) : str :=
  match s with
  | EmptyString => []
  | String a s' => N_of_ascii a :: py s'
  end.

Definition eqb (a b : str) : bool := bool_decide (a = b).

(** [startswith sub s]: [s.startswith(sub)]. *)
Fixpoint startswith (sub s : str) : bool :=
  match sub, s with
  | [], _ => true
  | _ :: _, [] => false
  | a :: sub', b :: s' => N.eqb a b && startswith sub' s'
  end.

(** [str_in sub s]: the Python test [sub in s] on two strings. *)
Fixpoint str_in (sub s : str) : bool :=
  startswith sub s ||
  match s with
  | [] => false
  | _ :: s' => str_in sub s'
  end.

(** [s.split(sep)] for a non-empty separator: the text is scanned from the
    left and cut at every occurrence of [sep] that does not overlap the
    previous one. [skip] counts the characters of a separator still to be
    passed over and [cur] is the piece being collected. *)
Fixpoint split_aux (sep : str) (skip : nat) (cur : str) (s : str) : list str :=
  match s with
  | [] => [cur]
  | c :: s' =>
      match skip with
      | S k => split_aux sep k cur s'
      | O =>
          if startswith sep s
          then cur :: split_aux sep (length sep - 1) [] s'
          else split_aux sep 0 (cur ++ [c]) s'
      end
  end.

Definition split (s sep : str) : list str := split_aux sep 0 [] s.

(** [s.replace(old, new)] for a non-empty [old]. *)
Fixpoint replace_aux (old new : str) (skip : nat) (s : str) : str :=
  match s with
  | [] => []
  | c :: s' =>
      match skip with
      | S k => replace_aux old new k s'
      | O =>
          if startswith old s
          then new ++ replace_aux old new (length old - 1) s'
          else c :: replace_aux old new 0 s'
      end
  end.

Definition replace (s old new : str) : str := replace_aux old new 0 s.

(** The code points for which [str.isspace] holds; [str.strip()] removes
    them from both ends. *)
Definition isspace (c : N) : bool :=
  ((9 <=? c) && (c <=? 13) || (28 <=? c) && (c <=? 32) || (c =? 133) ||
   (c =? 160) || (c =? 5760) || (8192 <=? c) && (c <=? 8202) ||
   (c =? 8232) || (c =? 8233) || (c =? 8239) || (c =? 8287) ||
   (c =? 12288))%N.

Fixpoint lstrip (s : str) : str :=
  match s with
  | [] => []
  | c :: s' => if isspace c then lstrip s' else s
  end.

Definition rstrip (s : str) : str := rev (lstrip (rev s)).

Definition strip (s : str) : str := rstrip (lstrip s).

(** Truth value of a string: the empty string is falsy. *)
Definition truthy (s : str) : bool :=
  match s with [] => false | _ => true end.

End PyStr.

Import PyStr.

(** ** Exceptions *)

Inductive exn : Type :=
  | IndexError
  | JSONDecodeError
  | TypeError
  | ValueError
  | Exception (msg : str).

Inductive res (A : Type) : Type :=
  | Ok (a : A)
  | Raise (e : exn).

Arguments Ok {A} a.
Arguments Raise {A} e.

#[global] Instance res_ret : MRet res := fun A a => Ok a.
#[global] Instance res_bind : MBind res := fun A B f m =>
  match m with
  | Ok a => f a
  | Raise e => Raise e
  end.
#[global] Instance res_fmap : FMap res := fun A B f m =>
  match m with
  | Ok a => Ok (f a)
  | Raise e => Raise e
  end.

(** [l[i]] for [i >= 0]. *)
Definition index {A} (l : list A) (i : nat) : res A :=
  match l !! i with
  | Some x => Ok x
  | None => Raise IndexError
  end.

(** [l[-1]]. *)
Definition index_last {A} (l : list A) : res A :=
  match last l with
  | Some x => Ok x
  | None => Raise IndexError
  end.

(** [try: body except IndexError: handler]. *)
Definition except_IndexError {A} (body handler : res A) : res A :=
  match body with
  | Raise IndexError => handler
  | r => r
  end.

(** ** ezweb/utils/http.py *)

Module Http.

(** The statement shared by [is_url_root] and [url_spliter]:
    [try: url = url.split("https://")[1]
     except IndexError: url = url.split("http://")[1]]. *)
Definition drop_scheme (url : str) : res str :=
  except_IndexError (index (split url (py "https://")) 1)
                    (index (split url (py "http://")) 1).

Definition is_url_root (url : str) : res bool :=
  if str_in (py "http") url then
    url' ← drop_scheme url;
    result ← except_IndexError
      (seg ← index (split url' (py "/")) 1;
       Ok (if negb (eqb seg []) then false else true))
      (Ok true);
    Ok result
  else Raise (Exception (url ++ py " Must be an http/https pattern")).

(** What [url_spliter] returns: the tuple [(root, children)] or the list
    [children] alone. *)
Inductive spliter_result : Type :=
  | RootAndChildren (root : str) (children : list str)
  | Children (children : list str).

(** [root == True] once [root] has been rebound to a string: a [str] never
    equals the boolean [True]. *)
Definition str_eq_True (root : str) : bool := false.

(** The parameter [root] is rebound by [root = url.split("/")[0]] before it
    is read, so the flag passed by the caller is never consulted. *)
Definition url_spliter (url : str) (root : bool) : res spliter_result :=
  url' ← (if str_in (py "http") url then drop_scheme url else Ok url);
  root' ← index (split url' (py "/")) 0;
  let children := drop 1 (split url' (py "/")) in
  Ok (if str_eq_True root' then RootAndChildren root' children
      else Children children).

End Http.


(** ** The parsed tree (bs4) *)

Module Bs4.

(** The class of a string of the tree: [NavigableString] itself
    ([Plain]) or one of its subclasses. *)
Inductive string_class : Type :=
  | Plain
  | CData
  | Comment
  | Script
  | Stylesheet
  | TemplateString
  | RubyTextString
  | RubyParenthesisString
  | Declaration
  | Doctype
  | ProcessingInstruction.

#[global] Instance string_class_eq_dec : EqDecision string_class.
Proof. solve_decision. Defined.

(** A node of the tree: a string with its class, or an element with its
    name, its attributes (a multi-valued attribute such as [class] is kept
    as its space-joined text) and its children. The [BeautifulSoup] object
    at the root is a [Tag] as well. *)
#[warnings="-register-all"] Inductive node : Type :=
  | NavigableString (cls : string_class) (s : str)
  | Tag (name : str) (attrs : list (str * str)) (contents : list node).

Definition name_of (n : node) : option str :=
  match n with
  | NavigableString _ _ => None
  | Tag name _ _ => Some name
  end.

Definition contents_of (n : node) : list node :=
  match n with
  | NavigableString _ _ => []
  | Tag _ _ cs => cs
  end.

(** [t.get(key)]. *)
Fixpoint lookup_attr (key : str) (attrs : list (str * str)) : option str :=
  match attrs with
  | [] => None
  | (k, v) :: attrs' => if eqb k key then Some v else lookup_attr key attrs'
  end.

Definition get (n : node) (key : str) : option str :=
  match n with
  | NavigableString _ _ => None
  | Tag _ attrs _ => lookup_attr key attrs
  end.

(** All nodes below [n], in document order ([n.descendants]). *)
Fixpoint descendants (n : node) : list node :=
  match n with
  | NavigableString _ _ => []
  | Tag _ _ cs =>
      (fix go (l : list node) : list node :=
         match l with
         | [] => []
         | c :: l' => c :: descendants c ++ go l'
         end) cs
  end.

(** The class given to the strings directly inside an element of this
    name by the HTML tree builders, if any. *)
Definition string_container (tag_name : str) : option string_class :=
  if eqb tag_name (py "rt") then Some RubyTextString
  else if eqb tag_name (py "rp") then Some RubyParenthesisString
  else if eqb tag_name (py "style") then Some Stylesheet
  else if eqb tag_name (py "script") then Some Script
  else if eqb tag_name (py "template") then Some TemplateString
  else None.

(** The classes of string that the text of an element of this name is
    made of: the class of its container for [script], [style] and the
    like, and otherwise [NavigableString] and [CData] only, so that
    comments, scripts and style sheets are left out. *)
Definition interesting (tag_name : str) (cls : string_class) : bool :=
  match string_container tag_name with
  | Some c => bool_decide (cls = c)
  | None => bool_decide (cls = Plain) || bool_decide (cls = CData)
  end.

(** The strings [get_text] joins: for an element, the strings below it
    whose class is interesting for it, in document order; for a string,
    itself when it is a [NavigableString] or a [CData]. *)
Definition all_strings (n : node) : list str :=
  match n with
  | NavigableString cls s =>
      if bool_decide (cls = Plain) || bool_decide (cls = CData) then [s] else []
  | Tag name _ _ =>
      omap (fun d => match d with
                     | NavigableString cls s =>
                         if interesting name cls then Some s else None
                     | Tag _ _ _ => None
                     end)
           (descendants n)
  end.

(** [n.text]. *)
Definition text (n : node) : str := concat (all_strings n).

(** What an entry of the [attrs] argument of [find_all] asks of an
    attribute: a given value, or ([True]) to be present. *)
Inductive attr_filter : Type :=
  | AttrIs (v : str)
  | AttrPresent.

Definition attr_ok (n : node) (f : str * attr_filter) : bool :=
  match get n f.1, f.2 with
  | Some v, AttrIs w => eqb v w
  | Some _, AttrPresent => true
  | None, _ => false
  end.

Definition is_named (tag_name : str) (n : node) : bool :=
  match name_of n with
  | Some m => eqb m tag_name
  | None => false
  end.

(** [n.find_all(tag_name, attrs)]. *)
Definition find_all (n : node) (tag_name : str)
    (attrs : list (str * attr_filter)) : list node :=
  List.filter (fun d => is_named tag_name d && forallb (attr_ok d) attrs)
              (descendants n).

(** [n.find(tag_name, attrs)]. *)
Definition find (n : node) (tag_name : str)
    (attrs : list (str * attr_filter)) : option node :=
  head (find_all n tag_name attrs).

(** [n.find_all(text=True)]: the strings below [n], of every class. *)
Definition find_all_text (n : node) : list str :=
  omap (fun d => match d with
                 | NavigableString _ s => Some s
                 | Tag _ _ _ => None
                 end)
       (descendants n).

(** The selector [tag_name[attr*="value"]]: the elements below [n] named
    [tag_name] (any element for ["*"]) whose attribute [attr] contains
    [value]. *)
Definition matches_contains (tag_name attr value : str) (d : node) : bool :=
  match d with
  | NavigableString _ _ => false
  | Tag m _ _ =>
      (eqb tag_name (py "*") || eqb m tag_name) &&
      match get d attr with
      | Some v => str_in value v
      | None => false
      end
  end.

Definition select_contains (n : node) (tag_name attr value : str) : list node :=
  List.filter (matches_contains tag_name attr value) (descendants n).

(** [x in t] for a tag [t] looks for [x] among the children of [t]; a
    string equals a string child with the same characters, of whatever
    class, and no element. *)
Definition tag_contains (x : str) (n : node) : bool :=
  existsb (fun c => match c with
                    | NavigableString _ s => eqb s x
                    | Tag _ _ _ => false
                    end) (contents_of n).

(** [len(x)] for a child [x]: the length of a text, the number of children
    of an element. *)
Definition len (n : node) : nat :=
  match n with
  | NavigableString _ s => length s
  | Tag _ _ cs => length cs
  end.

End Bs4.

Import Bs4.

(** ** JSON values, as [json.loads] returns them *)

#[warnings="-register-all"] Inductive json : Type :=
  | JNull
  | JBool (b : bool)
  | JNumber (literal : str)
  | JString (s : str)
  | JList (items : list json)
  | JDict (items : list (str * json)).

(** ** Collaborators

    The functions the module imports from the standard library, from
    third-party packages and from [ezweb.utils.text] and
    [ezweb.utils.http]; their code is not part of the two files embedded
    here, so they are taken as given. Apart from [json.loads] and
    [urlparse], whose errors the extractors can meet, they are taken to
    return a value on every argument. *)
Record url_parts : Type := { scheme : str; netloc : str }.

Class Collaborators : Type := {
  (** [ezweb.utils.text.clean_text] *)
  clean_text : str -> str;
  (** [ezweb.utils.text.clean_title], also called on [None] *)
  clean_title : option str -> option str;
  (** [ezweb.utils.text.similarity_of], a score from 0 to 100 *)
  similarity_of : str -> option str -> Z;
  (** [ezweb.utils.http.name_from_url] *)
  name_from_url : str -> str;
  (** [unidecode.unidecode] *)
  unidecode : str -> str;
  (** [str.lower] *)
  lower : str -> str;
  (** [json.loads]; a malformed text raises [JSONDecodeError] *)
  json_loads : str -> res json;
  (** [urllib.parse.urlparse]; it may raise [ValueError] *)
  urlparse : str -> res url_parts;
  (** [list(s)] for the set [s] built from the given elements: the
      iteration order of the set *)
  list_of_set : list str -> list str
}.

(** The same collaborators with another [json.loads]. *)
Definition with_json_loads (c : Collaborators) (loads : str -> res json)
    : Collaborators := {|
  clean_text := @clean_text c;
  clean_title := @clean_title c;
  similarity_of := @similarity_of c;
  name_from_url := @name_from_url c;
  unidecode := @unidecode c;
  lower := @lower c;
  json_loads := loads;
  urlparse := @urlparse c;
  list_of_set := @list_of_set c
|}.

(** ** Python built-ins used by the extractors *)

(** [sorted(l, key=key)]: ascending and stable (equal keys keep the order
    they had in [l]). *)
Fixpoint insert_sorted {A} (key : A -> nat) (x : A) (l : list A) : list A :=
  match l with
  | [] => [x]
  | y :: l' =>
      if (key x <=? key y)%nat then x :: y :: l'
      else y :: insert_sorted key x l'
  end.

Fixpoint sorted {A} (key : A -> nat) (l : list A) : list A :=
  match l with
  | [] => []
  | x :: l' => insert_sorted key x (sorted key l')
  end.

(** [a or b] on optional strings: [a] when it is truthy, else [b]. *)
Definition or_else (a b : option str) : option str :=
  match a with
  | Some (_ :: _) => a
  | _ => b
  end.

(** A dict comprehension [{k: v for (k, v) in items}]: later items overwrite
    earlier ones. *)
Definition insert_all `{Countable K} {V} (items : list (K * V))
    (d : gmap K V) : gmap K V :=
  fold_left (fun d kv => <[kv.1 := kv.2]> d) items d.

Definition dict_of `{Countable K} {V} (items : list (K * V)) : gmap K V :=
  insert_all items ∅.

(** The items [(k, v)] of a comprehension [for v in vs for k in ks]. *)
Definition cross {K V} (ks : list K) (vs : list V) : list (K * V) :=
  flat_map (fun v => map (fun k => (k, v)) ks) vs.

(** ** The pattern of [question_answer_from_text] *)

Module Re.

Definition newline : N := 10%N.

(** The character class of the pattern: the ASCII question mark and the
    Arabic one (U+061F). *)
Definition is_question_mark (c : N) : bool := (c =? 63)%N || (c =? 1567)%N.

(** The greedy [.*] followed by the rest of the pattern [k]: it takes as
    many characters other than a newline as it can and gives them back one
    at a time until [k] matches. [taken] is what [.*] holds so far. *)
Fixpoint dot_star {A} (k : str -> str -> option A) (taken s : str) : option A :=
  match s with
  | [] => k taken s
  | c :: s' =>
      if (c =? newline)%N then k taken s
      else match dot_star k (taken ++ [c]) s' with
           | Some r => Some r
           | None => k taken s
           end
  end.

(** A match of the whole pattern (group, question mark, group) starting at
    the head of [s]: the two groups and the number of characters consumed. *)
Definition match_here (s : str) : option (str * str * nat) :=
  dot_star (fun g1 rest =>
    match rest with
    | c :: rest' =>
        if is_question_mark c
        then dot_star (fun g2 _ => Some (g1, g2, (length g1 + 1 + length g2)%nat))
                      [] rest'
        else None
    | [] => None
    end) [] s.

(** [re.findall]: the matches from left to right, none overlapping the
    one before. [skip] counts the characters of the last match still to be
    passed over (a match of this pattern is never empty). *)
Fixpoint findall_aux (skip : nat) (s : str) : list (str * str) :=
  match skip with
  | S k =>
      match s with
      | [] => []
      | _ :: s' => findall_aux k s'
      end
  | O =>
      match match_here s with
      | Some (g1, g2, n) =>
          (g1, g2) :: match s with
                      | [] => []
                      | _ :: s' => findall_aux (n - 1) s'
                      end
      | None =>
          match s with
          | [] => []
          | _ :: s' => findall_aux 0 s'
          end
      end
  end.

Definition findall (s : str) : list (str * str) := findall_aux 0 s.

(** A line ends at the end of the text or at a newline. *)
Definition line_end (rest : str) : Prop :=
  rest = [] \/ exists r, rest = newline :: r.

(** The amended reading of the split, for one line of the text: the part
    before the last question mark of the line and the part after it, if
    the line has a question mark at all. *)
Fixpoint split_at_last_question_mark (line : str) : option (str * str) :=
  match line with
  | [] => None
  | c :: line' =>
      match split_at_last_question_mark line' with
      | Some (before, after) => Some (c :: before, after)
      | None => if is_question_mark c then Some ([], line') else None
      end
  end.

(** The reading of the claim: the part before the first question mark and
    the part after it. *)
Fixpoint split_at_first_question_mark (line : str) : option (str * str) :=
  match line with
  | [] => None
  | c :: line' =>
      if is_question_mark c then Some ([], line')
      else match split_at_first_question_mark line' with
           | Some (before, after) => Some (c :: before, after)
           | None => None
           end
  end.

End Re.

(** ** ezweb/utils/souphelper.py

    The methods of [EzSoupHelper]. A [cached_property] computes its value
    from the tree and the URL alone, so it is embedded as a function of the
    helper. *)

Module EzSoupHelper.

Record t : Type := { soup : node; url : str }.

Section Methods.

Context `{Collaborators}.
Variable self : t.

Definition all (tag_name : str) (attrs : list (str * attr_filter)) : list node :=
  find_all (soup self) tag_name attrs.

Definition first (tag_name : str) (attrs : list (str * attr_filter)) : option node :=
  find (soup self) tag_name attrs.

(** [contains] builds the selector [tag_name[attr*="value"]] and hands it
    to [xpath], which runs [soup.select] on it. The methods embedded here
    call it with the fixed words of the code (letters only), for which the
    selector is the substring test of [select_contains]. *)
Definition contains (tag_name attr value : str) : list node :=
  select_contains (soup self) tag_name attr value.

(** A tag is always truthy, so [not t or not t.text] is [not t.text]. *)
Definition tag_text (t : node) : option str :=
  if negb (truthy (text t)) then None else Some (clean_text (text t)).

(** [all_contains] without [just_text] (its default). *)
Definition all_contains (attr value parent_tag_name : str) : list node :=
  contains parent_tag_name attr value.

(** [all_contains(..., just_text=True)]: the cleaned texts that are truthy. *)
Definition all_contains_text (attr value parent_tag_name : str) : list str :=
  omap (fun t => match tag_text t with
                 | Some s => if truthy s then Some s else None
                 | None => None
                 end)
       (contains parent_tag_name attr value).

Definition meta (key name : str) : option node :=
  first (py "meta") [(key, AttrIs name)].

Definition meta_content (key name : str) : option str :=
  match meta key name with
  | None => None
  | Some tag => get tag (py "content")
  end.

Definition meta_og_content (name : str) : option str :=
  meta_content (py "property") (py "og:" ++ name).

Definition site_name : option str :=
  let og_site_name := meta_og_content (py "site_name") in
  let twitter_meta := meta_content (py "name") (py "twitter:creator") in
  let nav := first (py "nav") [] in
  let nav_img :=
    match nav with
    | Some n => find n (py "img") [(py "alt", AttrPresent)]
    | None => None
    end in
  let nav_img_alt :=
    match nav_img with
    | Some i => get i (py "alt")
    | None => None
    end in
  let nav_img_alt :=
    match nav_img_alt with
    | Some (c :: alt) =>
        let unicoded := unidecode (c :: alt) in
        let domain_name := name_from_url (url self) in
        if negb (15 <=? similarity_of unicoded (Some domain_name))%Z
        then None else nav_img_alt
    | _ => nav_img_alt
    end in
  let text := or_else (or_else og_site_name twitter_meta) nav_img_alt in
  clean_title text.

(** The local variables of [possible_topic_tags], in the order in which the
    method computes them. *)
Definition breads : list node :=
  let id_bread := all_contains (py "id") (py "breadcrumb") (py "*") in
  let class_bread := all_contains (py "class") (py "breadcrumb") (py "*") in
  id_bread ++ class_bread.

Definition class_maybe : list node :=
  let class_cat := contains (py "div") (py "class") (py "cat") in
  let class_tag := contains (py "div") (py "class") (py "tag") in
  let class_maybe := class_cat ++ class_tag in
  if (7 <? length class_maybe)%nat then [] else class_maybe.

Definition article_ul_a : list node :=
  let article := first (py "article") [] in
  let article_ul_tag :=
    match article with
    | Some a => find a (py "ul") []
    | None => None
    end in
  match article_ul_tag with
  | Some u => find_all u (py "a") []
  | None => []
  end.

(** The links found in the given containers. *)
Definition links_in (containers : list node) : list node :=
  flat_map (fun el => find_all el (py "a") []) containers.

Definition possible_topic_tags : list node :=
  let maybe_elements_containers := breads ++ class_maybe in
  let maybe_elements := links_in maybe_elements_containers in
  let tags := maybe_elements ++ article_ul_a in
  tags.

(** One row of [table_info]: the comprehension runs over the cells and,
    inside, over the heads. *)
Definition row_dict (row : node) : gmap (option str) (option str) :=
  dict_of (flat_map (fun cell =>
                       map (fun head => (tag_text head, tag_text cell))
                           (find_all row (py "th") []))
                    (find_all row (py "td") [])).

Definition table_info : list (gmap (option str) (option str)) :=
  match first (py "table") [] with
  | None => []
  | Some t =>
      let rows := find_all t (py "tr") [] in
      match rows with
      | [] => []
      | _ => map row_dict rows
      end
  end.

Definition classes : list str := [py "address"; py "location"; py "contact"].

Definition words : list str :=
  [[1570; 1583; 1585; 1587];
   [1606; 1588; 1575; 1606; 1740];
   [1588; 1593; 1576; 1607];
   [1582; 1740; 1575; 1576; 1575; 1606];
   [1705; 1608; 1670; 1607];
   [1662; 1604; 1575; 1705];
   [1576; 1604; 1608; 1575; 1585];
   [1605; 1740; 1583; 1575; 1606];
   [1670; 1607; 1575; 1585; 1585; 1575; 1607];
   [1591; 1576; 1602; 1607];
   [1578; 1601; 1575; 1591; 1593]]%N.

(** [_texts_of] inside [address]. *)
Definition _texts_of (tags : list node) : list str :=
  list_of_set (map (fun t => clean_text (text t))
                   (List.filter (fun t => truthy (text t)) tags)).

(** The loop over [words] at the end of [address]; falling out of it
    returns [None]. *)
Fixpoint search_words (footer : node) (ws : list str) : option str :=
  match ws with
  | [] => None
  | w :: ws' =>
      let search := find_all_text footer in
      let texts := list_of_set (map clean_text (List.filter (str_in w) search)) in
      match texts with
      | x :: _ => Some x
      | [] => search_words footer ws'
      end
  end.

(** [footer = self.all("footer")[-1]] comes before the test
    [if not footer], which a tag never passes. *)
Definition address : res (option str) :=
  let ad_tags := all (py "address") [] in
  let from_ad_tags :=
    match ad_tags with
    | [] => None
    | _ => head (_texts_of ad_tags)
    end in
  match from_ad_tags with
  | Some x => Ok (Some x)
  | None =>
      let tags := flat_map (fun c => all_contains (py "class") c (py "footer"))
                           classes in
      match tags with
      | _ :: _ => Ok (head (_texts_of tags))
      | [] =>
          footer ← index_last (all (py "footer") []);
          Ok (search_words footer words)
      end
  end.

Definition _bad_topic_names : list str :=
  [[1601; 1585; 1608; 1588; 1711; 1575; 1607]%N;
   [1582; 1575; 1606; 1607]%N;
   [1589; 1601; 1581; 1607; 32; 1575; 1589; 1604; 1740]%N;
   [1576; 1585; 1711; 1588; 1578]%N;
   [1576; 1575; 1586; 1711; 1588; 1578]%N;
   py "home"; py "return"; py "back"; py "undo"; py "shop"].

(** The key of the sort in [application_json]:
    [len(t.contents[0] if t.contents else [])]. *)
Definition content_len (t : node) : nat :=
  match contents_of t with
  | [] => 0
  | c :: _ => len c
  end.

(** The tail of [application_json], from [string = ...] on, for the chosen
    tag. A first child that is an element is truthy and is not [""], and
    [json.loads] refuses it with [TypeError]. *)
Definition loads_contents (tag : node) : res (option json) :=
  match contents_of tag with
  | [] => Ok None
  | NavigableString _ s :: _ =>
      if truthy s && negb (eqb s []) then Some <$> json_loads s else Ok None
  | Tag _ _ _ :: _ => Raise TypeError
  end.

(** [all_json_tags] inside [application_json]. *)
Definition all_json_tags : list node :=
  all (py "script") [(py "type", AttrIs (py "application/ld+json"))].

Definition application_json : res (option json) :=
  match all_json_tags with
  | [] => Ok None
  | _ =>
      tag ← index_last (sorted content_len all_json_tags);
      loads_contents tag
  end.

(** [extract] inside [_json_extract]: the values of [key] that are neither
    a dict nor a list, depth first. *)
Fixpoint extract (obj : json) (key : str) : list json :=
  match obj with
  | JDict items =>
      (fix go (l : list (str * json)) : list json :=
         match l with
         | [] => []
         | (k, v) :: l' =>
             match v with
             | JDict _ | JList _ => extract v key
             | _ => if eqb k key then [v] else []
             end ++ go l'
         end) items
  | JList items =>
      (fix go (l : list json) : list json :=
         match l with
         | [] => []
         | item :: l' => extract item key ++ go l'
         end) items
  | _ => []
  end.

Definition _json_extract (obj : option json) (key : str) : list json :=
  match obj with
  | Some o => extract o key
  | None => []
  end.

Definition from_json_schema (key : str) : res (list json) :=
  obj ← application_json;
  Ok (_json_extract obj key).

Definition from_structured_data (key : str) : res (list json) :=
  from_json_schema key.

Definition _ok_topic_name (name : str) : bool :=
  let name := lower name in
  if negb (truthy name) || eqb name [] || (26 <? length name)%nat then false
  else if bool_decide (name ∈ _bad_topic_names) then false
  else
    let site_name := site_name in
    if bool_decide (Some name = site_name) then false
    else
      let sim := similarity_of name site_name in
      if (65 <? sim)%Z then false else true.

(** [_ok] inside [question_answer_from_text]. *)
Definition _ok (k v : str) : bool :=
  if negb (truthy k) || eqb (replace (strip k) [Re.newline] []) [] then false
  else if negb (truthy v) || eqb (replace (strip v) [Re.newline] []) [] then false
  else true.

Definition question_answer_from_text (text : str) : gmap str str :=
  let matches := Re.findall text in
  dict_of (map (fun kv => (strip kv.1, strip kv.2))
               (List.filter (fun kv => _ok kv.1 kv.2) matches)).

Definition question_answers : list (gmap str str) :=
  map question_answer_from_text
      (all_contains_text (py "class") (py "faq") (py "*")).

(** The argument [source] of [absolute_href_of]: a string or a tag. *)
Inductive href_source : Type :=
  | SourceStr (s : str)
  | SourceTag (tag : node).

Definition absolute_href_of (source : href_source) (should_be_internal : bool)
    : res (option str) :=
  let falsy :=
    match source with
    | SourceStr s => negb (truthy s)
    | SourceTag (NavigableString _ s) => negb (truthy s)
    | SourceTag (Tag _ _ _) => false
    end in
  if falsy then Ok None
  else
    let link :=
      match source with
      | SourceTag ((Tag name _ _) as tag) =>
          if bool_decide (name ∈ [py "a"; py "link"])
             && negb (tag_contains (py "http") tag)
          then get tag (py "href")
          else match get tag (py "src") with
               | Some v => Some v
               | None => get tag (py "data-src")
               end
      | _ => None
      end in
    match link with
    | None | Some [] => Ok None
    | Some ((c :: _) as link) =>
        parts ← urlparse (url self);
        let root_domain := replace (netloc parts) (py "www.") [] in
        let root := py "https://" ++ root_domain in
        if str_in (py "http") link then
          if should_be_internal then
            link_parts ← urlparse link;
            let link_domain := replace (netloc link_parts) (py "www.") [] in
            let is_internal := eqb link_domain root_domain in
            if negb is_internal then Ok None else Ok (Some link)
          else Ok (Some link)
        else
          if negb (c =? 47)%N then Ok None
          else Ok (Some (root ++ link))
    end.

End Methods.

End EzSoupHelper.

Import EzSoupHelper.

(** ** Concrete collaborators for the examples

    The examples below are run with these stand-ins. Every general theorem
    is proved for arbitrary collaborators. *)

Module Urllib.

Definition is_alpha (c : N) : bool :=
  ((65 <=? c) && (c <=? 90) || (97 <=? c) && (c <=? 122))%N.

Definition is_scheme_char (c : N) : bool :=
  (is_alpha c || (48 <=? c) && (c <=? 57) ||
   (c =? 43) || (c =? 45) || (c =? 46))%N.

Definition ascii_lower (c : N) : N :=
  if ((65 <=? c) && (c <=? 90))%N then (c + 32)%N else c.

(** [url.find(':')]: the text before the first colon and the text after. *)
Fixpoint cut_at_colon (before s : str) : option (str * str) :=
  match s with
  | [] => None
  | c :: s' =>
      if (c =? 58)%N then Some (before, s')
      else cut_at_colon (before ++ [c]) s'
  end.

(** The network location ends at the first of [/], [?] and [#]. *)
Fixpoint take_netloc (s : str) : str :=
  match s with
  | [] => []
  | c :: s' =>
      if ((c =? 47) || (c =? 63) || (c =? 35))%N then []
      else c :: take_netloc s'
  end.

(** The scheme and the network location as [urllib.parse.urlsplit] finds
    them in a URL free of control characters. *)
Definition urlsplit (url : str) : res url_parts :=
  let '(sch, rest) :=
    match cut_at_colon [] url with
    | Some (c :: before, after) =>
        if is_alpha c && forallb is_scheme_char (c :: before)
        then (map ascii_lower (c :: before), after)
        else ([], url)
    | _ => ([], url)
    end in
  match rest with
  | 47%N :: 47%N :: r =>
      let loc := take_netloc r in
      let has c := bool_decide (c ∈ loc) in
      if (has 91%N && negb (has 93%N)) || (has 93%N && negb (has 91%N))
      then Raise ValueError
      else Ok {| scheme := sch; netloc := loc |}
  | _ => Ok {| scheme := sch; netloc := [] |}
  end.

End Urllib.

Module Examples.

Local Open Scope string_scope.

Definition is_digit (c : N) : bool := ((48 <=? c) && (c <=? 57))%N.

(** [json.loads] on the texts the examples use: the three keyword literals
    and unsigned decimal integers are values; the other texts used below
    (such as a lone opening brace) are malformed. *)
Definition loads_literal (s : str) : res json :=
  if eqb s (py "null") then Ok JNull
  else if eqb s (py "true") then Ok (JBool true)
  else if eqb s (py "false") then Ok (JBool false)
  else match s with
       | c :: s' =>
           if forallb is_digit s && (negb (c =? 48)%N || eqb s' [])
           then Ok (JNumber s) else Raise JSONDecodeError
       | [] => Raise JSONDecodeError
       end.

(** The elements of a set in the order of their first insertion. *)
Fixpoint first_occurrences (seen l : list str) : list str :=
  match l with
  | [] => []
  | x :: l' =>
      if bool_decide (x ∈ seen) then first_occurrences seen l'
      else x :: first_occurrences (x :: seen) l'
  end.

(** Collaborators whose similarity score is the constant [score]; the
    text cleaners only trim. *)
Definition collaborators (score : Z) : Collaborators := {|
  clean_text := strip;
  clean_title := fmap strip;
  similarity_of := fun _ _ => score;
  name_from_url := fun u => u;
  unidecode := fun s => s;
  lower := map Urllib.ascii_lower;
  json_loads := loads_literal;
  urlparse := Urllib.urlsplit;
  list_of_set := first_occurrences []
|}.

Definition el (name : string) (attrs : list (string * string))
    (cs : list node) : node :=
  Tag (py name) (map (fun kv => (py kv.1, py kv.2)) attrs) cs.

Definition txt (s : string) : node := NavigableString Plain (py s).

Definition page (u : string) (body : list node) : EzSoupHelper.t :=
  {| soup := Tag (py "[document]") [] [el "html" [] [el "body" [] body]];
     url := py u |}.

Definition json_ld (body : string) : node :=
  el "script" [("type", "application/ld+json")]
     [NavigableString Script (py body)].

(** A page whose only JSON-LD block is a lone opening brace. *)
Definition malformed_page : EzSoupHelper.t :=
  page "https://example.com/page" [json_ld "{"].

(** A page with two JSON-LD blocks of the same length. *)
Definition tied_page : EzSoupHelper.t :=
  page "https://example.com/page" [json_ld "1"; json_ld "2"].

(** A page with no [footer] and no [address] element. *)
Definition plain_page : EzSoupHelper.t :=
  page "https://example.com/page" [el "p" [] [txt "hello"]].

(** A table row with two heads and three cells. *)
Definition row_2_3 : node :=
  el "tr" [] [el "th" [] [txt "h1"]; el "th" [] [txt "h2"];
              el "td" [] [txt "d1"]; el "td" [] [txt "d2"];
              el "td" [] [txt "d3"]].

Definition table_page : EzSoupHelper.t :=
  page "https://example.com/page" [el "table" [] [row_2_3]].

(** A page served over plain http. *)
Definition http_page : EzSoupHelper.t :=
  page "http://example.com/page" [].

Definition anchor (href : string) : node := el "a" [("href", href)] [].

(** A page with eight [div]s of class [tag], each holding a link, and one
    breadcrumb holding a link. *)
Definition tag_div (label : string) : node :=
  el "div" [("class", "tag")] [el "a" [("href", "/t")] [txt label]].

Definition noisy_page : EzSoupHelper.t :=
  page "https://example.com/page"
    [el "ul" [("class", "breadcrumb")] [el "a" [("href", "/home")] [txt "Home"]];
     tag_div "1"; tag_div "2"; tag_div "3"; tag_div "4";
     tag_div "5"; tag_div "6"; tag_div "7"; tag_div "8"].

(** A page whose site name, from its Open Graph tag, is [Example]. *)
Definition named_page : EzSoupHelper.t :=
  page "https://example.com/page"
    [el "meta" [("property", "og:site_name"); ("content", "Example")] []].

End Examples.

Import Examples.


(** ** The remaining methods of [EzSoupHelper] *)

(** A JSON value that is neither a dict nor a list. *)
Definition is_scalar (j : json) : Prop :=
  match j with
  | JDict _ | JList _ => False
  | _ => True
  end.

(** [o] is [None] or the empty string: the left operand of an [or] that
    gives way to the right one. *)
Definition falsy (o : option str) : Prop := o = None \/ o = Some [].

Section MoreMethods.

Context `{Collaborators}.

(** [str.capitalize], and [re.findall] for a pattern whose matches are
    strings (a pattern with at most one group). *)
Variable capitalize : str -> str.
Variable re_findall : str -> str -> list str.

(** [t.get_text(strip=True)]: every text below [t] is trimmed, the empty
    ones are dropped and the rest is joined. *)
Definition get_text_strip (n : node) : str :=
  concat (List.filter truthy (map strip (all_strings n))).

Definition possible_topic_names (self : EzSoupHelper.t) : list str :=
  list_of_set
    (map capitalize
         (List.filter (_ok_topic_name self)
                      (map get_text_strip (possible_topic_tags self)))).

(** The first and the last piece of [n.split("-")]; a split is never
    empty. *)
Definition first_piece (n : str) : str := default [] (head (split n (py "-"))).
Definition last_piece (n : str) : str := default [] (last (split n (py "-"))).

(** A match written backwards: it has a hyphen and its first piece is
    longer than its last one. *)
Definition is_reversed (n : str) : bool :=
  str_in (py "-") n && (length (last_piece n) <? length (first_piece n))%nat.

(** The loop of [_number_groups] over the matches: a reversed match is
    appended with its ends swapped and ends the loop. *)
Fixpoint number_loop (nums : list str) : list str :=
  match nums with
  | [] => []
  | n :: nums' =>
      if is_reversed n then [last_piece n ++ first_piece n]
      else n :: number_loop nums'
  end.

(** The text [_number_groups] searches: trimmed, without newlines and
    spaces, transliterated. *)
Definition number_text (t : node) : str :=
  unidecode (replace (replace (strip (text t)) [Re.newline] []) (py " ") []).

Definition _number_groups (t : node) (pattern : str) : list str :=
  if negb (truthy (text t)) then []
  else number_loop (re_findall pattern (number_text t)).

End MoreMethods.

Module MoreExamples.

Local Open Scope string_scope.

(** A page whose URL [urlsplit] rejects: an opening bracket without the
    closing one in the network location. *)
Definition bracket_page : EzSoupHelper.t := page "https://[bad/page" [].

(** A page with an [og:site_name], a [twitter:creator] and a logo in its
    navigation bar. *)
Definition branded_page : EzSoupHelper.t :=
  page "https://example.com/page"
    [el "meta" [("property", "og:site_name"); ("content", "Example")] [];
     el "meta" [("name", "twitter:creator"); ("content", "@example")] [];
     el "nav" [] [el "img" [("alt", "Example logo")] []]].

(** A page whose only hint at its name is the logo of its navigation
    bar. *)
Definition logo_page : EzSoupHelper.t :=
  page "https://example.com/page"
    [el "nav" [] [el "img" [("alt", "Example logo")] []]].

(** A page with an [address] element and no [footer]. *)
Definition address_page : EzSoupHelper.t :=
  page "https://example.com/page" [el "address" [] [txt " 1 Main Street "]].

(** A page with a [footer] that says nothing about an address. *)
Definition footer_page : EzSoupHelper.t :=
  page "https://example.com/page" [el "footer" [] [txt "All rights reserved"]].

(** A head row and a row of cells alone. *)
Definition head_row : node :=
  el "tr" [] [el "th" [] [txt "h1"]; el "th" [] [txt "h2"]].

Definition cell_row : node :=
  el "tr" [] [el "td" [] [txt "d1"]; el "td" [] [txt "d2"]].

(** The JSON value [{"a": {"b": 1}, "c": [{"b": 2}], "b": [3]}]. *)
Definition nested_json : json :=
  JDict [(py "a", JDict [(py "b", JNumber (py "1"))]);
         (py "c", JList [JDict [(py "b", JNumber (py "2"))]]);
         (py "b", JList [JNumber (py "3")])].

(** [re.findall] for the examples: the text cut at its commas. *)
Definition comma_findall (pattern text : str) : list str :=
  split text (py ",").

Definition phone_tag : node := el "p" [] [txt "21-555, 12345-021, 77"].

(** [str.capitalize] on ASCII text. *)
Definition ascii_upper (c : N) : N :=
  if ((97 <=? c) && (c <=? 122))%N then (c - 32)%N else c.

Definition ascii_capitalize (s : str) : str :=
  match s with
  | [] => []
  | c :: s' => ascii_upper c :: map Urllib.ascii_lower s'
  end.

(** A page with four [div]s whose class contains both "cat" and "tag". *)
Definition category_div : node :=
  el "div" [("class", "category-tags")] [el "a" [("href", "/c")] [txt "c"]].

Definition category_page : EzSoupHelper.t :=
  page "https://example.com/page"
    [category_div; category_div; category_div; category_div].

(** A page with two footers; the second one names a street
    (the keyword of code points 1582 1740 1575 1576 1575 1606). *)
Definition first_footer : node :=
  el "footer" [] [NavigableString Plain [1570; 1583; 1585; 1587; 32; 50]%N].

Definition last_footer : node :=
  el "footer" []
     [NavigableString Plain [1582; 1740; 1575; 1576; 1575; 1606; 32; 49]%N].

Definition two_footers_page : EzSoupHelper.t :=
  page "https://example.com/page" [first_footer; last_footer].

(** A page with a breadcrumb of two links. *)
Definition topic_page : EzSoupHelper.t :=
  page "https://example.com/page"
    [el "ul" [("class", "breadcrumb")]
       [el "a" [("href", "/")] [txt " home "];
        el "a" [("href", "/news")] [txt " world news "]]].

End MoreExamples.

Import MoreExamples.

(** * Properties *)

(** ** Lists and strings *)

Lemma filter_nil_impl {A} (p q : A -> bool) (l : list A) :
  (forall x, q x = true -> p x = true) ->
  List.filter p l = [] -> List.filter q l = [].
Proof.
  intros Hqp. induction l as [|x l IH]; simpl; [done|].
  destruct (p x) eqn:Hp; [done|]. intros Hl.
  destruct (q x) eqn:Hq; [|auto].
  apply Hqp in Hq. congruence.
Qed.

Lemma filter_length_or {A} (p q : A -> bool) (l : list A) :
  length (List.filter (fun x => p x || q x) l)
  <= length (List.filter p l) + length (List.filter q l).
Proof.
  induction l as [|x l IH]; simpl; [lia|].
  destruct (p x), (q x); simpl; lia.
Qed.

Lemma not_elem_of_forallb (c : N) (s : str) :
  forallb (fun d => negb (c =? d)%N) s = true -> c ∉ s.
Proof.
  induction s as [|d s IH]; cbn; [intros _; apply not_elem_of_nil|].
  intros Hall. apply andb_true_iff in Hall as [Hd Hs].
  apply not_elem_of_cons. split; [|auto].
  apply negb_true_iff, N.eqb_neq in Hd. exact Hd.
Qed.

(** ** The link resolver *)

(** C10: for every plain string source, empty or not, and for both values
    of the internal-only flag, [absolute_href_of] returns [None]: a string
    is not a [Tag], so no link is ever read from it. *)
Theorem absolute_href_of_str_absent `{Collaborators} (self : EzSoupHelper.t)
    (s : str) (should_be_internal : bool) :
  absolute_href_of self (SourceStr s) should_be_internal = Ok None.
Proof.
  unfold absolute_href_of. destruct s; reflexivity.
Qed.

(** C8, as stated, fails on a page served over http: the resolved URL
    starts with https, not with the scheme of the page. *)
Lemma absolute_href_of_scheme_counterexample :
  urlparse (Collaborators := collaborators 0) (url http_page)
    = Ok {| scheme := py "http"; netloc := py "example.com" |} /\
  absolute_href_of (H := collaborators 0) http_page
      (SourceTag (anchor "/a/b")) false
    = Ok (Some (py "https://example.com/a/b")) /\
  py "https://example.com/a/b" <> py "http" ++ py "://" ++ py "example.com" ++ py "/a/b".
Proof.
  split; [reflexivity|]. split; [reflexivity|]. discriminate.
Qed.

(** C8, amended: for an anchor that has no text child equal to "http" and
    whose [href] holds no "http", on a page whose URL [urlparse] accepts,
    [absolute_href_of] returns [None] when the reference does not start
    with a slash, and otherwise "https://" followed by the network location
    of the page with every "www." removed and by the reference. *)
Theorem absolute_href_of_relative `{Collaborators} (self : EzSoupHelper.t)
    (attrs : list (str * str)) (cs : list node) (link : str)
    (should_be_internal : bool) (parts : url_parts) :
  tag_contains (py "http") (Tag (py "a") attrs cs) = false ->
  lookup_attr (py "href") attrs = Some link ->
  str_in (py "http") link = false ->
  urlparse (url self) = Ok parts ->
  absolute_href_of self (SourceTag (Tag (py "a") attrs cs)) should_be_internal
  = Ok (if startswith (py "/") link
        then Some (py "https://" ++ replace (netloc parts) (py "www.") [] ++ link)
        else None).
Proof.
  intros Hchild Hhref Hrel Hurl. unfold absolute_href_of.
  rewrite Hchild.
  replace (bool_decide (py "a" ∈ [py "a"; py "link"])) with true
    by (symmetry; apply bool_decide_eq_true; left).
  cbn [negb andb get]. rewrite Hhref.
  destruct link as [|c link]; [reflexivity|].
  rewrite Hurl. cbn [mbind res_bind]. rewrite Hrel.
  cbn [startswith py]. change (N_of_ascii "/"%char) with 47%N.
  rewrite (N.eqb_sym 47 c), andb_true_r.
  destruct (c =? 47)%N; cbn [negb]; [by rewrite <- app_assoc | done].
Qed.

(** The example of the specification: on https://example.com/page the
    reference /a/b resolves to https://example.com/a/b. *)
Lemma absolute_href_of_relative_witness :
  absolute_href_of (H := collaborators 0) plain_page
      (SourceTag (anchor "/a/b")) true
    = Ok (Some (py "https://example.com/a/b")) /\
  absolute_href_of (H := collaborators 0) plain_page
      (SourceTag (anchor "#section")) true
    = Ok None.
Proof.
  split.
  - exact (absolute_href_of_relative (H := collaborators 0) plain_page
             [(py "href", py "/a/b")] [] (py "/a/b") true
             {| scheme := py "https"; netloc := py "example.com" |}
             eq_refl eq_refl eq_refl eq_refl).
  - exact (absolute_href_of_relative (H := collaborators 0) plain_page
             [(py "href", py "#section")] [] (py "#section") true
             {| scheme := py "https"; netloc := py "example.com" |}
             eq_refl eq_refl eq_refl eq_refl).
Defined.

(** ** The topic extractor *)

(** C9: when more than seven [div] elements have a class containing "cat"
    or "tag", the class-based containers contribute nothing: the candidates
    are exactly the [a] elements found below the elements whose [id]
    contains "breadcrumb", then below those whose [class] contains
    "breadcrumb", then below the first [ul] of the first [article]. In
    particular every [a] below a breadcrumb element is still a
    candidate. *)
Theorem possible_topic_tags_noise (self : EzSoupHelper.t) :
  7 < length (List.filter
                (fun d => matches_contains (py "div") (py "class") (py "cat") d
                          || matches_contains (py "div") (py "class") (py "tag") d)
                (descendants (soup self))) ->
  class_maybe self = [] /\
  possible_topic_tags self
  = flat_map (fun c => find_all c (py "a") [])
      (select_contains (soup self) (py "*") (py "id") (py "breadcrumb") ++
       select_contains (soup self) (py "*") (py "class") (py "breadcrumb"))
    ++ match find (soup self) (py "article") [] with
       | Some article =>
           match find article (py "ul") [] with
           | Some ul => find_all ul (py "a") []
           | None => []
           end
       | None => []
       end /\
  (forall c a : node,
     c ∈ descendants (soup self) ->
     matches_contains (py "*") (py "id") (py "breadcrumb") c = true
       \/ matches_contains (py "*") (py "class") (py "breadcrumb") c = true ->
     a ∈ descendants c ->
     is_named (py "a") a = true ->
     a ∈ possible_topic_tags self).
Proof.
  intros Hmany.
  assert (Hnil : class_maybe self = []).
  { unfold class_maybe, contains, select_contains.
    pose proof (filter_length_or
      (matches_contains (py "div") (py "class") (py "cat"))
      (matches_contains (py "div") (py "class") (py "tag"))
      (descendants (soup self))) as Hle.
    rewrite length_app.
    destruct (Nat.ltb_spec 7
      (length (List.filter (matches_contains (py "div") (py "class") (py "cat"))
                           (descendants (soup self))) +
       length (List.filter (matches_contains (py "div") (py "class") (py "tag"))
                           (descendants (soup self))))); [done | lia]. }
  assert (Heq : possible_topic_tags self
    = flat_map (fun c => find_all c (py "a") [])
        (select_contains (soup self) (py "*") (py "id") (py "breadcrumb") ++
         select_contains (soup self) (py "*") (py "class") (py "breadcrumb"))
      ++ match find (soup self) (py "article") [] with
         | Some article =>
             match find article (py "ul") [] with
             | Some ul => find_all ul (py "a") []
             | None => []
             end
         | None => []
         end).
  { unfold possible_topic_tags. rewrite Hnil, app_nil_r.
    unfold article_ul_a, first.
    by destruct (find (soup self) (py "article") []). }
  split; [exact Hnil|]. split; [exact Heq|].
  intros c a Hc Hbread Ha Hnamed. rewrite Heq.
  apply elem_of_app. left. apply list_elem_of_In, in_flat_map.
  exists c. split.
  - apply in_or_app. unfold select_contains.
    destruct Hbread as [Hid | Hclass]; [left | right];
      apply filter_In; by rewrite <- list_elem_of_In.
  - unfold find_all. apply filter_In. rewrite <- list_elem_of_In.
    split; [exact Ha|]. by rewrite Hnamed.
Qed.

(** Eight [div]s of class "tag", each with a link, and one breadcrumb:
    the link of the breadcrumb is the only candidate. *)
Lemma possible_topic_tags_noise_witness :
  possible_topic_tags noisy_page
  = [Tag (py "a") [(py "href", py "/home")] [NavigableString Plain (py "Home")]].
Proof.
  destruct (possible_topic_tags_noise noisy_page) as (_ & Heq & _).
  { vm_compute. lia. }
  rewrite Heq. reflexivity.
Defined.

(** C6, as stated, fails at a similarity of exactly 65: the candidate
    "News" on a site named "Example" is accepted. *)
Lemma _ok_topic_name_65_counterexample :
  site_name (H := collaborators 65) named_page = Some (py "Example") /\
  similarity_of (Collaborators := collaborators 65)
    (lower (Collaborators := collaborators 65) (py "News"))
    (site_name (H := collaborators 65) named_page) = 65%Z /\
  _ok_topic_name (H := collaborators 65) named_page (py "News") = true.
Proof.
  repeat split.
Qed.

(** Every test of the filter is made on the lower-cased candidate. *)
Lemma _ok_topic_name_false_iff `{Collaborators} (self : EzSoupHelper.t)
    (name : str) :
  _ok_topic_name self name = false <->
  lower name = [] \/
  26 < length (lower name) \/
  lower name ∈ _bad_topic_names \/
  Some (lower name) = site_name self \/
  (65 < similarity_of (lower name) (site_name self))%Z.
Proof.
  unfold _ok_topic_name, eqb.
  generalize (lower name) as n. intros [|c l].
  { cbn. split; [by left | done]. }
  cbn [truthy negb orb]. rewrite bool_decide_eq_false_2 by done. cbn [orb].
  generalize (c :: l) (@nil_cons N c l). intros n Hn.
  destruct (Nat.ltb_spec 26 (length n)) as [Hlen|Hlen].
  { split; [by right; left | done]. }
  destruct (bool_decide_reflect (n ∈ _bad_topic_names)) as [Hbad|Hbad].
  { split; [by right; right; left | done]. }
  destruct (bool_decide_reflect (Some n = site_name self)) as [Hsite|Hsite].
  { split; [by right; right; right; left | done]. }
  destruct (Z.ltb_spec 65 (similarity_of n (site_name self))) as [Hsim|Hsim].
  { split; [by right; right; right; right | done]. }
  split; [done|].
  intros [Hnil | [Hl | [Hb | [Hs | Hz]]]]; try done; try lia.
Qed.

(** C6, amended: a candidate is rejected when its lower-cased form is
    empty, longer than 26 characters or one of the stop words, or is scored
    strictly above 65 against the site name. A candidate that is already
    in lower case is rejected exactly when one of these holds or it is
    exactly equal to the site name; so a score of exactly 65 does not
    reject it. Nothing is said of a candidate with upper-case letters that
    equals the site name. *)
Theorem _ok_topic_name_rejects `{Collaborators} (self : EzSoupHelper.t)
    (name : str) :
  (lower name = [] \/
   26 < length (lower name) \/
   lower name ∈ _bad_topic_names \/
   (65 < similarity_of (lower name) (site_name self))%Z ->
   _ok_topic_name self name = false) /\
  (lower name = name ->
   (_ok_topic_name self name = false <->
    name = [] \/
    26 < length name \/
    name ∈ _bad_topic_names \/
    Some name = site_name self \/
    (65 < similarity_of name (site_name self))%Z)).
Proof.
  split.
  - intros Hrej. apply _ok_topic_name_false_iff. tauto.
  - intros Hlow. rewrite _ok_topic_name_false_iff, Hlow. tauto.
Qed.

(** The stop word "HOME" is rejected whatever its case; the lower-case
    candidate "news" is rejected at a score of 66 and not at 65. *)
Lemma _ok_topic_name_rejects_witness :
  _ok_topic_name (H := collaborators 0) named_page (py "HOME") = false /\
  _ok_topic_name (H := collaborators 66) named_page (py "news") = false /\
  _ok_topic_name (H := collaborators 65) named_page (py "news") <> false.
Proof.
  split; [|split].
  - apply (proj1 (_ok_topic_name_rejects (H := collaborators 0) named_page
                    (py "HOME"))).
    right; right; left. apply list_elem_of_In. vm_compute. tauto.
  - apply (proj2 (_ok_topic_name_rejects (H := collaborators 66) named_page
                    (py "news")) eq_refl).
    right; right; right; right. vm_compute. reflexivity.
  - intros Hrej.
    apply (proj2 (_ok_topic_name_rejects (H := collaborators 65) named_page
                    (py "news")) eq_refl) in Hrej.
    destruct Hrej as [Hr | [Hr | [Hr | [Hr | Hr]]]].
    + discriminate Hr.
    + vm_compute in Hr. lia.
    + apply list_elem_of_In in Hr. cbn in Hr.
      repeat (destruct Hr as [Hr | Hr]; [discriminate Hr|]). exact Hr.
    + vm_compute in Hr. discriminate Hr.
    + vm_compute in Hr. discriminate Hr.
Defined.

(** ** The address extractor *)

Lemma contains_footer_nil (self : EzSoupHelper.t) (attr value : str) :
  all self (py "footer") [] = [] ->
  contains self (py "footer") attr value = [].
Proof.
  unfold all, find_all, contains, select_contains.
  apply filter_nil_impl. intros [cls s|m attrs cs]; [done|].
  unfold matches_contains, is_named. cbn [name_of forallb].
  replace (eqb (py "footer") (py "*")) with false by reflexivity.
  cbn [orb]. intros Hm. apply andb_true_iff in Hm as [-> _]. reflexivity.
Qed.

(** C2 is violated: on a page without a [footer] on which the [address]
    elements give no text, [self.all("footer")[-1]] is evaluated on the
    empty list and [address] raises [IndexError]; the test
    [if not footer] that follows is never reached. *)
Theorem address_without_footer `{Collaborators} (self : EzSoupHelper.t) :
  all self (py "footer") [] = [] ->
  all self (py "address") [] = []
    \/ _texts_of (all self (py "address") []) = [] ->
  address self = Raise IndexError.
Proof.
  intros Hfooter Had. unfold address.
  assert (Hfirst : match all self (py "address") [] with
                   | [] => None
                   | _ :: _ => head (_texts_of (all self (py "address") []))
                   end = None).
  { destruct Had as [-> | Htexts]; [done|].
    rewrite Htexts. by destruct (all self (py "address") []). }
  rewrite Hfirst. unfold classes, all_contains. cbn [flat_map].
  rewrite !contains_footer_nil by exact Hfooter. cbn [app].
  rewrite Hfooter. reflexivity.
Qed.

(** A page with one paragraph and no footer. *)
Lemma address_without_footer_witness :
  address (H := collaborators 0) plain_page = Raise IndexError.
Proof.
  apply (address_without_footer (H := collaborators 0) plain_page).
  - reflexivity.
  - left. reflexivity.
Defined.

(** ** The structured-data extractor *)

Section Sorted.

Context {A : Type} (key : A -> nat).

Lemma forallb_insert_sorted (p : A -> bool) (x : A) (l : list A) :
  forallb p (insert_sorted key x l) = p x && forallb p l.
Proof.
  induction l as [|y l IH]; cbn; [done|].
  destruct (key x <=? key y); cbn; [done|].
  rewrite IH. by destruct (p x), (p y).
Qed.

Lemma forallb_sorted (p : A -> bool) (l : list A) :
  forallb p (sorted key l) = forallb p l.
Proof.
  induction l as [|x l IH]; cbn; [done|].
  by rewrite forallb_insert_sorted, IH.
Qed.

Lemma forallb_lookup (p : A -> bool) (l : list A) (j : nat) (u : A) :
  forallb p l = true -> l !! j = Some u -> p u = true.
Proof.
  revert j. induction l as [|y l IH]; intros j Hall Hj; [done|].
  cbn in Hall. apply andb_true_iff in Hall as [Hy Hl].
  destruct j as [|j]; cbn in Hj; [by simplify_eq | eauto].
Qed.

Lemma forallb_false_lookup (p : A -> bool) (l : list A) :
  forallb p l = false -> exists j u, l !! j = Some u /\ p u = false.
Proof.
  induction l as [|y l IH]; cbn; [done|].
  destruct (p y) eqn:Hy; cbn.
  - intros Hl. destruct (IH Hl) as (j & u & Hj & Hu). by exists (S j), u.
  - intros _. by exists 0, y.
Qed.

(** Inserting [x] puts it last exactly when every key is below its own. *)
Lemma last_insert_sorted (x : A) (l : list A) :
  last (insert_sorted key x l)
  = if forallb (fun y => key y <? key x) l then Some x else last l.
Proof.
  induction l as [|y l IH]; cbn [insert_sorted forallb]; [done|].
  destruct (Nat.leb_spec (key x) (key y)) as [Hle|Hlt].
  - replace (key y <? key x) with false by (symmetry; apply Nat.ltb_ge; lia).
    reflexivity.
  - replace (key y <? key x) with true by (symmetry; apply Nat.ltb_lt; lia).
    cbn [andb].
    transitivity (last (insert_sorted key x l)).
    { by destruct l as [|z l]; cbn; [|destruct (key x <=? key z)]. }
    rewrite IH. destruct l as [|z l]; [done|].
    by destruct (forallb _ (z :: l)).
Qed.

(** [sorted(l, key)[-1]] is an element of [l] with the largest key, and the
    last such element of [l]. *)
Lemma last_sorted_spec (l : list A) :
  l <> [] ->
  exists i x,
    l !! i = Some x /\ last (sorted key l) = Some x /\
    (forall j u, l !! j = Some u -> key u <= key x) /\
    (forall j u, l !! j = Some u -> i < j -> key u < key x).
Proof.
  induction l as [|a l IH]; [done|]. intros _.
  cbn [sorted]. rewrite last_insert_sorted, forallb_sorted.
  destruct (forallb (fun y => key y <? key a) l) eqn:Hall.
  - exists 0, a. repeat split; [| intros [|j] u Hj Hlt; [lia|]].
    + intros [|j] u Hj; cbn in Hj; [by simplify_eq|].
      apply (forallb_lookup _ _ _ _ Hall) in Hj. apply Nat.ltb_lt in Hj. lia.
    + cbn in Hj. apply (forallb_lookup _ _ _ _ Hall) in Hj.
      by apply Nat.ltb_lt in Hj.
  - destruct (forallb_false_lookup _ _ Hall) as (k & y & Hk & Hy).
    apply Nat.ltb_ge in Hy.
    destruct IH as (i & x & Hi & Hlast & Hmax & Hafter); [by destruct l|].
    exists (S i), x. repeat split; [done | done | |].
    + intros [|j] u Hj; cbn in Hj; [|eauto].
      simplify_eq. specialize (Hmax _ _ Hk). lia.
    + intros [|j] u Hj Hlt; [lia|]. cbn in Hj. apply (Hafter j); [done|lia].
Qed.

(** The element described by [last_sorted_spec] is the only one. *)
Lemma last_sorted_unique (l : list A) (i : nat) (x : A) :
  l !! i = Some x ->
  (forall j u, l !! j = Some u -> key u <= key x) ->
  (forall j u, l !! j = Some u -> i < j -> key u < key x) ->
  last (sorted key l) = Some x.
Proof.
  intros Hi Hmax Hafter.
  destruct (last_sorted_spec l) as (i' & x' & Hi' & Hlast & Hmax' & Hafter').
  { intros ->. by rewrite lookup_nil in Hi. }
  rewrite Hlast. f_equal.
  destruct (Nat.lt_trichotomy i i') as [Hlt | [-> | Hgt]].
  - specialize (Hafter _ _ Hi' Hlt). specialize (Hmax' _ _ Hi). lia.
  - congruence.
  - specialize (Hafter' _ _ Hi Hgt). specialize (Hmax _ _ Hi'). lia.
Qed.

End Sorted.

Lemma index_last_sorted_ok {A} (key : A -> nat) (l : list A) (x : A) :
  last (sorted key l) = Some x -> index_last (sorted key l) = Ok x.
Proof. unfold index_last. by intros ->. Qed.

(** C5, as stated, fails on a tie: of two blocks of the same length the
    second one, not the first, is parsed. *)
Lemma application_json_tie_counterexample :
  all_json_tags tied_page = [json_ld "1"; json_ld "2"] /\
  content_len (json_ld "1") = content_len (json_ld "2") /\
  loads_contents (H := collaborators 0) (json_ld "1")
    = Ok (Some (JNumber (py "1"))) /\
  application_json (H := collaborators 0) tied_page
    = Ok (Some (JNumber (py "2"))).
Proof.
  repeat split.
Qed.

(** C5, amended: on a page with at least one JSON-LD block,
    [application_json] parses exactly one block; its first child is at
    least as long as that of every block, and strictly longer than that of
    every block that comes after it, so among the longest blocks the last
    one met is chosen. *)
Theorem application_json_selects_last_longest `{Collaborators}
    (self : EzSoupHelper.t) :
  all_json_tags self <> [] ->
  exists i tag,
    all_json_tags self !! i = Some tag /\
    (forall j u, all_json_tags self !! j = Some u ->
                 content_len u <= content_len tag) /\
    (forall j u, all_json_tags self !! j = Some u -> i < j ->
                 content_len u < content_len tag) /\
    application_json self = loads_contents tag.
Proof.
  intros Hne.
  destruct (last_sorted_spec content_len _ Hne)
    as (i & tag & Hi & Hlast & Hmax & Hafter).
  exists i, tag. repeat split; [done | done | done |].
  unfold application_json.
  destruct (all_json_tags self) as [|a l] eqn:Htags; [done|].
  by rewrite (index_last_sorted_ok _ _ _ Hlast).
Qed.

(** On the page with the blocks "1" and "2" the block at index 1 is
    parsed. *)
Lemma application_json_selects_last_longest_witness :
  exists i tag,
    all_json_tags tied_page !! i = Some tag /\
    (forall j u, all_json_tags tied_page !! j = Some u ->
                 content_len u <= content_len tag) /\
    (forall j u, all_json_tags tied_page !! j = Some u -> i < j ->
                 content_len u < content_len tag) /\
    application_json (H := collaborators 0) tied_page
      = loads_contents (H := collaborators 0) tag.
Proof.
  apply (application_json_selects_last_longest (H := collaborators 0) tied_page).
  vm_compute. discriminate.
Defined.

(** C1, as stated, fails: a block holding a lone opening brace makes
    [application_json] raise the error of [json.loads]. *)
Lemma application_json_malformed_counterexample :
  all_json_tags malformed_page = [json_ld "{"] /\
  json_loads (Collaborators := collaborators 0) (py "{") = Raise JSONDecodeError /\
  application_json (H := collaborators 0) malformed_page = Raise JSONDecodeError /\
  application_json (H := collaborators 0) malformed_page <> Ok None.
Proof.
  repeat split. discriminate.
Qed.

(** C1, amended: when [json.loads] raises on the non-empty text of the
    chosen block (the longest one, the last among equally long ones),
    [application_json] raises the same error and so does the
    key search built on it. The extractors that do not read the structured
    data return the same values whatever [json.loads] does. *)
Theorem application_json_malformed_raises `{Collaborators}
    (self : EzSoupHelper.t) (i : nat) (tag : node) (cls : string_class)
    (s : str) (rest : list node) (e : exn) (key : str) :
  all_json_tags self !! i = Some tag ->
  (forall j u, all_json_tags self !! j = Some u ->
               content_len u <= content_len tag) ->
  (forall j u, all_json_tags self !! j = Some u -> i < j ->
               content_len u < content_len tag) ->
  contents_of tag = NavigableString cls s :: rest ->
  s <> [] ->
  json_loads s = Raise e ->
  application_json self = Raise e /\
  from_json_schema self key = Raise e /\
  (forall loads,
     let other := with_json_loads H loads in
     site_name (H := other) self = site_name self /\
     table_info (H := other) self = table_info self /\
     address (H := other) self = address self /\
     question_answers (H := other) self = question_answers self /\
     forall name, _ok_topic_name (H := other) self name = _ok_topic_name self name).
Proof.
  intros Hi Hmax Hafter Hcontents Hs Hloads.
  pose proof (index_last_sorted_ok _ _ _
                (last_sorted_unique content_len _ i tag Hi Hmax Hafter)) as Htag.
  assert (Happ : application_json self = Raise e).
  { unfold application_json.
    destruct (all_json_tags self) as [|a l] eqn:Htags; [done|].
    rewrite Htag. cbn [mbind res_bind]. unfold loads_contents.
    rewrite Hcontents. destruct s as [|c s]; [done|].
    cbn [truthy andb]. unfold eqb. rewrite bool_decide_eq_false_2 by done.
    cbn [negb]. by rewrite Hloads. }
  split; [exact Happ|]. split.
  - unfold from_json_schema. by rewrite Happ.
  - intros loads other. repeat split.
Qed.

(** A missing or empty body gives [None] without calling [json.loads]. *)
Lemma loads_contents_empty `{Collaborators} (name : str)
    (attrs : list (str * str)) (cls : string_class) (rest : list node) :
  loads_contents (Tag name attrs []) = Ok None /\
  loads_contents (Tag name attrs (NavigableString cls [] :: rest)) = Ok None.
Proof. by split. Qed.

(** The page whose only block is a lone opening brace. *)
Lemma application_json_malformed_raises_witness :
  application_json (H := collaborators 0) malformed_page = Raise JSONDecodeError /\
  from_json_schema (H := collaborators 0) malformed_page (py "name")
    = Raise JSONDecodeError.
Proof.
  assert (Hmax : forall j u,
            all_json_tags malformed_page !! j = Some u ->
            content_len u <= content_len (json_ld "{")).
  { intros [|[|j]] u Hj; vm_compute in Hj; [|discriminate Hj..].
    injection Hj as <-. vm_compute. lia. }
  assert (Hafter : forall j u,
            all_json_tags malformed_page !! j = Some u -> 0 < j ->
            content_len u < content_len (json_ld "{")).
  { intros [|[|j]] u Hj Hlt; [lia|vm_compute in Hj; discriminate Hj..]. }
  pose proof (application_json_malformed_raises (H := collaborators 0)
    malformed_page 0 (json_ld "{") Script (py "{") [] JSONDecodeError (py "name")
    eq_refl Hmax Hafter eq_refl ltac:(discriminate) eq_refl)
    as (Happ & Hschema & _).
  exact (conj Happ Hschema).
Defined.

(** ** The tabular-data extractor *)

Section CrossProduct.

Context `{Countable K} {V : Type}.

Implicit Types (ks : list K) (vs : list V) (m : gmap K V).

Lemma insert_all_one_value ks (v : V) m (k : K) :
  insert_all (map (fun k => (k, v)) ks) m !! k
  = if decide (k ∈ ks) then Some v else m !! k.
Proof.
  revert m. induction ks as [|k0 ks IH]; intros m; cbn.
  { by rewrite decide_False by apply not_elem_of_nil. }
  unfold insert_all in IH. rewrite IH.
  destruct (decide (k ∈ ks)) as [Hin|Hnin].
  - by rewrite decide_True by (by right).
  - destruct (decide (k = k0)) as [->|Hne].
    + rewrite decide_True by left. apply lookup_insert_eq.
    + rewrite decide_False by (intros Hk; apply elem_of_cons in Hk; tauto).
      by apply lookup_insert_ne.
Qed.

Lemma insert_all_cross ks vs m (k : K) :
  insert_all (cross ks vs) m !! k
  = if decide (k ∈ ks)
    then match last vs with Some v => Some v | None => m !! k end
    else m !! k.
Proof.
  revert m. induction vs as [|v vs IH]; intros m.
  { cbn. by destruct (decide _). }
  unfold cross, insert_all in *. cbn [flat_map].
  rewrite fold_left_app, IH.
  pose proof (insert_all_one_value ks v m k) as Hone.
  unfold insert_all in Hone. rewrite Hone, last_cons.
  destruct (decide (k ∈ ks)); [|done]. by destruct (last vs).
Qed.

Lemma size_list_to_set_le ks : size (list_to_set ks : gset K) <= length ks.
Proof.
  induction ks as [|k ks IH]; cbn; [by rewrite size_empty|].
  rewrite size_union_alt, size_singleton.
  assert (Hsub : list_to_set ks ∖ {[k]} ⊆ (list_to_set ks : gset K))
    by apply subseteq_difference_l, reflexivity.
  apply subseteq_size in Hsub. lia.
Qed.

Lemma size_dict_of_cross ks vs : size (dict_of (cross ks vs)) <= length ks.
Proof.
  rewrite <- size_dom.
  etransitivity; [|apply size_list_to_set_le].
  apply subseteq_size. intros k Hk.
  apply elem_of_dom in Hk as [v Hv]. apply elem_of_list_to_set.
  unfold dict_of in Hv. rewrite insert_all_cross in Hv.
  destruct (decide (k ∈ ks)); [done|]. by rewrite lookup_empty in Hv.
Qed.

End CrossProduct.

Lemma flat_map_cross {A B K V} (f : A -> K) (g : B -> V)
    (hs : list A) (cs : list B) :
  flat_map (fun c => map (fun h => (f h, g c)) hs) cs
  = cross (map f hs) (map g cs).
Proof.
  unfold cross. induction cs as [|c cs IH]; cbn; [done|].
  by rewrite IH, map_map.
Qed.

Lemma row_dict_cross `{Collaborators} (row : node) :
  row_dict row
  = dict_of (cross (map tag_text (find_all row (py "th") []))
                   (map tag_text (find_all row (py "td") []))).
Proof. unfold row_dict. by rewrite flat_map_cross. Qed.

(** C7: the mapping built for a row has at most as many keys as the row has
    [th] cells; every key is the text of a [th] cell and is bound to the
    text of the last [td] cell of the row; and when the row has a [td] cell
    the text of every [th] cell is a key. [table_info] is the list of these
    mappings for the rows of the first table. *)
Theorem table_info_cross_product `{Collaborators} (self : EzSoupHelper.t)
    (row : node) :
  let heads := find_all row (py "th") [] in
  let cells := find_all row (py "td") [] in
  size (row_dict row) <= length heads /\
  (forall k v, row_dict row !! k = Some v ->
     (exists head, head ∈ heads /\ k = tag_text head) /\
     (exists cell, last cells = Some cell /\ v = tag_text cell)) /\
  (forall head cell, head ∈ heads -> last cells = Some cell ->
     row_dict row !! tag_text head = Some (tag_text cell)) /\
  (forall t, first self (py "table") [] = Some t ->
     table_info self = map row_dict (find_all t (py "tr") [])).
Proof.
  intros heads cells. rewrite row_dict_cross. fold heads cells.
  assert (Hlook : forall k,
    dict_of (cross (map tag_text heads) (map tag_text cells)) !! k
    = if decide (k ∈ map tag_text heads)
      then tag_text <$> last cells else None).
  { intros k. unfold dict_of. rewrite insert_all_cross, lookup_empty.
    change (map tag_text cells) with (tag_text <$> cells).
    rewrite fmap_last. by destruct (last cells). }
  split; [|split; [|split]].
  - rewrite <- (length_map tag_text heads). apply size_dict_of_cross.
  - intros k v. rewrite Hlook.
    destruct (decide _) as [Hin|]; [|done].
    apply list_elem_of_fmap in Hin as (head & -> & Hhead).
    destruct (last cells) as [cell|]; [|done]. cbn. intros [= <-].
    split; [by exists head | by exists cell].
  - intros head cell Hhead Hcell. rewrite Hlook, Hcell.
    rewrite decide_True; [done|]. apply list_elem_of_fmap. eauto.
  - intros t Ht. unfold table_info. rewrite Ht.
    by destruct (find_all t (py "tr") []).
Qed.

(** The row with two heads and three cells: two keys, both bound to the
    text of the third cell. *)
Lemma table_info_cross_product_witness :
  size (row_dict (H := collaborators 0) row_2_3) <= 2 /\
  row_dict (H := collaborators 0) row_2_3 !! Some (py "h1")
    = Some (Some (py "d3")) /\
  row_dict (H := collaborators 0) row_2_3 !! Some (py "h2")
    = Some (Some (py "d3")) /\
  table_info (H := collaborators 0) table_page
    = [row_dict (H := collaborators 0) row_2_3].
Proof.
  pose proof (table_info_cross_product (H := collaborators 0) table_page row_2_3)
    as (Hsize & _ & Hbound & Htable).
  split; [exact Hsize|]. split; [|split].
  - apply (Hbound (el "th" [] [txt "h1"]) (el "td" [] [txt "d3"]));
      [left | reflexivity].
  - apply (Hbound (el "th" [] [txt "h2"]) (el "td" [] [txt "d3"]));
      [right; left | reflexivity].
  - apply (Htable (el "table" [] [row_2_3])). reflexivity.
Defined.

(** ** The URL utilities *)

Lemma split_aux_no_occurrence (sep cur s : str) :
  str_in sep s = false -> split_aux sep 0 cur s = [cur ++ s].
Proof.
  revert cur. induction s as [|c s IH]; intros cur Hno.
  { cbn. by rewrite app_nil_r. }
  cbn [str_in] in Hno. apply orb_false_iff in Hno as [Hhere Hlater].
  cbn [split_aux]. rewrite Hhere, (IH _ Hlater). by rewrite <- app_assoc.
Qed.

(** [split] never returns the empty list. *)
Lemma split_aux_cons (sep : str) (skip : nat) (cur s : str) :
  exists x l, split_aux sep skip cur s = x :: l.
Proof.
  revert skip cur. induction s as [|c s IH]; intros skip cur; cbn [split_aux].
  { by eexists _, _. }
  destruct skip as [|k]; [|apply IH].
  destruct (startswith sep (c :: s)); [by eexists _, _ | apply IH].
Qed.

(** Splitting at slashes gives back the pieces that were joined, when no
    piece holds a slash. *)
Lemma split_aux_slash_join (segs : list str) (host cur : str) :
  Forall (fun s => 47%N ∉ s) (host :: segs) ->
  split_aux [47%N] 0 cur (host ++ concat (map (cons 47%N) segs))
  = (cur ++ host) :: segs.
Proof.
  revert host cur. induction segs as [|sg segs IH]; intros host cur Hall;
    apply Forall_cons in Hall as [Hhost Hsegs].
  - cbn. rewrite app_nil_r. apply split_aux_no_occurrence.
    clear -Hhost. induction host as [|c host IHh]; [done|].
    cbn [str_in startswith]. apply not_elem_of_cons in Hhost as [Hc Hh].
    rewrite (IHh Hh), orb_false_r, andb_true_r. apply N.eqb_neq. congruence.
  - revert cur. induction host as [|c host IHh]; intros cur.
    + cbn. rewrite app_nil_r. f_equal.
      exact (IH sg [] Hsegs).
    + apply not_elem_of_cons in Hhost as [Hc Hh].
      cbn [app split_aux startswith].
      replace (47 =? c)%N with false by (symmetry; apply N.eqb_neq; congruence).
      cbn [andb]. rewrite (IHh Hh). by rewrite <- app_assoc.
Qed.

(** C3, as stated, fails: on an https URL [url_spliter] returns the list of
    path segments without the host, whatever the flag, and on a string
    that is not an http URL it raises nothing. *)
Lemma url_spliter_counterexample :
  Http.url_spliter (py "https://example.com/a/b") false
    = Ok (Http.Children [py "a"; py "b"]) /\
  Http.url_spliter (py "https://example.com/a/b") true
    = Ok (Http.Children [py "a"; py "b"]) /\
  Http.url_spliter (py "ftp://example.com/a") false
    = Ok (Http.Children [py ""; py "example.com"; py "a"]).
Proof.
  repeat split.
Qed.

(** C3, amended: called with its default flag on "https://" or "http://"
    followed by a host and path segments joined by slashes (with no further
    scheme prefix inside), [url_spliter] returns the path segments in
    order, without the host. On a string that does not contain "http",
    [is_url_root] raises an error, and [url_spliter] raises none: it
    returns what follows the first slash, cut at the slashes. *)
Theorem url_spliter_default_children :
  (forall (sch host : str) (segs : list str),
     sch ∈ [py "https://"; py "http://"] ->
     Forall (fun s => 47%N ∉ s) (host :: segs) ->
     str_in (py "https://") (host ++ concat (map (cons 47%N) segs)) = false ->
     str_in (py "http://") (host ++ concat (map (cons 47%N) segs)) = false ->
     Http.url_spliter (sch ++ host ++ concat (map (cons 47%N) segs)) false
     = Ok (Http.Children segs)) /\
  (forall url : str,
     str_in (py "http") url = false ->
     Http.is_url_root url
       = Raise (Exception (url ++ py " Must be an http/https pattern")) /\
     Http.url_spliter url false
       = Ok (Http.Children (drop 1 (split url (py "/"))))).
Proof.
  split.
  - intros sch host segs Hsch Hall Hhttps Hhttp.
    set (body := host ++ concat (map (cons 47%N) segs)) in *.
    assert (Hdrop : Http.drop_scheme (sch ++ body) = Ok body).
    { unfold Http.drop_scheme, split.
      apply elem_of_cons in Hsch as [-> | Hsch];
        [| apply list_elem_of_singleton in Hsch as ->].
      - cbn. by rewrite (split_aux_no_occurrence _ _ _ Hhttps).
      - rewrite (split_aux_no_occurrence (py "https://") [] (py "http://" ++ body))
          by (cbn; exact Hhttps).
        cbn. by rewrite (split_aux_no_occurrence _ _ _ Hhttp). }
    unfold Http.url_spliter.
    replace (str_in (py "http") (sch ++ body)) with true.
    2:{ apply elem_of_cons in Hsch as [-> | Hsch];
          [| apply list_elem_of_singleton in Hsch as ->]; reflexivity. }
    rewrite Hdrop. cbn [mbind res_bind]. unfold split, body.
    change (py "/") with [47%N].
    by rewrite (split_aux_slash_join segs host [] Hall).
  - intros url Hno. split.
    + unfold Http.is_url_root. by rewrite Hno.
    + unfold Http.url_spliter. rewrite Hno. cbn [mbind res_bind].
      unfold split.
      destruct (split_aux_cons (py "/") 0 [] url) as (x & l & ->). reflexivity.
Qed.

(** The URL https://example.com/a/b, and the string example.com/a. *)
Lemma url_spliter_default_children_witness :
  Http.url_spliter (py "https://example.com/a/b") false
    = Ok (Http.Children [py "a"; py "b"]) /\
  Http.is_url_root (py "example.com/a")
    = Raise (Exception (py "example.com/a Must be an http/https pattern")) /\
  Http.url_spliter (py "example.com/a") false = Ok (Http.Children [py "a"]).
Proof.
  destruct url_spliter_default_children as [Hsegs Hplain].
  split.
  - apply (Hsegs (py "https://") (py "example.com") [py "a"; py "b"]).
    + left.
    + repeat constructor; by apply not_elem_of_forallb.
    + reflexivity.
    + reflexivity.
  - apply (Hplain (py "example.com/a")). reflexivity.
Defined.

(** ** The FAQ splitter *)

Section Findall.

Import Re.

Lemma dot_star_takes_line {A} (f : str -> A) (line taken rest : str) :
  newline ∉ line -> line_end rest ->
  dot_star (fun g _ => Some (f g)) taken (line ++ rest) = Some (f (taken ++ line)).
Proof.
  intros Hline Hend. revert taken.
  induction line as [|c line IH]; intros taken.
  - rewrite app_nil_r. cbn [app].
    destruct Hend as [-> | [r ->]]; [done|].
    cbn [dot_star]. by rewrite N.eqb_refl.
  - apply not_elem_of_cons in Hline as [Hc Hline]. cbn [app dot_star].
    replace (c =? newline)%N with false by (symmetry; apply N.eqb_neq; congruence).
    rewrite (IH Hline). by rewrite <- app_assoc.
Qed.

Lemma split_at_last_length (line before after : str) :
  split_at_last_question_mark line = Some (before, after) ->
  length before + 1 + length after = length line.
Proof.
  revert before. induction line as [|c line IH]; intros before; cbn; [done|].
  destruct (split_at_last_question_mark line) as [[b a]|].
  - intros [= <- <-]. cbn. specialize (IH b eq_refl). lia.
  - destruct (is_question_mark c); [|done]. intros [= <- <-]. cbn. lia.
Qed.

(** The pattern, tried at the start of a line, matches exactly when the
    line has a question mark, and then splits the line at its last one. *)
Lemma dot_star_question (line taken rest : str) :
  newline ∉ line -> line_end rest ->
  dot_star (fun g1 rest =>
      match rest with
      | c :: rest' =>
          if is_question_mark c
          then dot_star (fun g2 _ => Some (g1, g2, length g1 + 1 + length g2))
                        [] rest'
          else None
      | [] => None
      end) taken (line ++ rest)
  = match split_at_last_question_mark line with
    | Some (before, after) =>
        Some (taken ++ before, after,
              length (taken ++ before) + 1 + length after)
    | None => None
    end.
Proof.
  intros Hline Hend. revert taken.
  induction line as [|c line IH]; intros taken.
  - cbn [app split_at_last_question_mark].
    destruct Hend as [-> | [r ->]]; [done|].
    cbn [dot_star]. by rewrite N.eqb_refl.
  - apply not_elem_of_cons in Hline as [Hc Hline].
    cbn [app dot_star split_at_last_question_mark].
    replace (c =? newline)%N with false by (symmetry; apply N.eqb_neq; congruence).
    rewrite (IH Hline).
    destruct (split_at_last_question_mark line) as [[b a]|].
    + by rewrite <- app_assoc.
    + destruct (is_question_mark c); [|done].
      rewrite (dot_star_takes_line
                 (fun g2 => (taken, g2, length taken + 1 + length g2))
                 line [] rest Hline Hend).
      by rewrite app_nil_r.
Qed.

Lemma match_here_line (line rest : str) :
  newline ∉ line -> line_end rest ->
  match_here (line ++ rest)
  = match split_at_last_question_mark line with
    | Some (before, after) => Some (before, after, length line)
    | None => None
    end.
Proof.
  intros Hline Hend. unfold match_here.
  rewrite (dot_star_question line [] rest Hline Hend).
  destruct (split_at_last_question_mark line) as [[b a]|] eqn:Hsplit; [|done].
  cbn [app]. by rewrite (split_at_last_length _ _ _ Hsplit).
Qed.

Lemma findall_aux_skip (l r : str) :
  findall_aux (length l) (l ++ r) = findall_aux 0 r.
Proof. induction l as [|c l IH]; [done|]. exact IH. Qed.

Lemma findall_aux_nil : findall_aux 0 [] = [].
Proof. reflexivity. Qed.

Lemma findall_aux_newline (r : str) :
  findall_aux 0 (newline :: r) = findall_aux 0 r.
Proof.
  pose proof (match_here_line [] (newline :: r) ltac:(apply not_elem_of_nil)
                ltac:(right; eauto)) as Hnl.
  cbn [app split_at_last_question_mark] in Hnl.
  cbn [findall_aux]. by rewrite Hnl.
Qed.

(** One line contributes its split, if it has one, and the search goes on
    after the line. *)
Lemma findall_aux_line (line rest : str) :
  newline ∉ line -> line_end rest ->
  findall_aux 0 (line ++ rest)
  = match split_at_last_question_mark line with
    | Some p => [p]
    | None => []
    end ++ findall_aux 0 rest.
Proof.
  intros Hline Hend. induction line as [|c line IH].
  { reflexivity. }
  pose proof (match_here_line (c :: line) rest Hline Hend) as Hhere.
  apply not_elem_of_cons in Hline as [Hc Hline].
  cbn [app findall_aux] in *. rewrite Hhere.
  destruct (split_at_last_question_mark (c :: line)) as [[b a]|] eqn:Hsplit.
  - cbn [length]. rewrite Nat.sub_1_r. cbn [Nat.pred app].
    by rewrite findall_aux_skip.
  - rewrite (IH Hline). cbn [split_at_last_question_mark] in Hsplit.
    destruct (split_at_last_question_mark line) as [[b a]|]; [done|].
    reflexivity.
Qed.

Lemma findall_aux_lines (s cur : str) :
  newline ∉ cur ->
  findall_aux 0 (cur ++ s)
  = omap split_at_last_question_mark (split_aux [newline] 0 cur s).
Proof.
  revert cur. induction s as [|c s IH]; intros cur Hcur.
  - rewrite (findall_aux_line cur [] Hcur) by (by left).
    cbn. by destruct (split_at_last_question_mark cur).
  - cbn [split_aux startswith]. rewrite andb_true_r.
    destruct (N.eqb_spec newline c) as [<- | Hne].
    + rewrite (findall_aux_line cur (newline :: s) Hcur) by (right; eauto).
      rewrite findall_aux_newline. cbn [length Nat.sub omap list_omap].
      rewrite <- (IH [] ltac:(apply not_elem_of_nil)). cbn [app].
      by destruct (split_at_last_question_mark cur).
    + rewrite <- IH.
      * by rewrite <- app_assoc.
      * intros Hin. apply elem_of_app in Hin as [Hin | Hin]; [done|].
        by apply list_elem_of_singleton in Hin.
Qed.

(** [re.findall] with the pattern of the FAQ splitter returns, for each
    line of the text that has a question mark, the part before the last
    question mark of the line and the part after it. *)
Lemma findall_lines (text : str) :
  findall text = omap split_at_last_question_mark (split text [newline]).
Proof.
  exact (findall_aux_lines text [] ltac:(apply not_elem_of_nil)).
Qed.

Lemma split_at_last_none (line : str) :
  Forall (fun c => is_question_mark c = false) line ->
  split_at_last_question_mark line = None.
Proof.
  induction 1 as [|c line Hc _ IH]; cbn; [done|]. by rewrite IH, Hc.
Qed.

Lemma split_at_last_app (q a : str) (m : N) :
  is_question_mark m = true ->
  Forall (fun c => is_question_mark c = false) a ->
  split_at_last_question_mark (q ++ m :: a) = Some (q, a).
Proof.
  intros Hm Ha. induction q as [|c q IH]; cbn.
  - by rewrite (split_at_last_none a Ha), Hm.
  - by rewrite IH.
Qed.

Lemma split_aux_newline_Forall (P : N -> Prop) (s cur : str) :
  Forall P (cur ++ s) -> Forall (Forall P) (split_aux [newline] 0 cur s).
Proof.
  revert cur. induction s as [|c s IH]; intros cur Hall.
  - rewrite app_nil_r in Hall. cbn. by repeat constructor.
  - cbn [split_aux startswith]. rewrite andb_true_r.
    apply Forall_app in Hall as [Hcur Hs].
    destruct (newline =? c)%N.
    + constructor; [done|]. apply (IH []). by inversion Hs.
    + apply IH. rewrite <- app_assoc. by apply Forall_app.
Qed.

End Findall.

Lemma str_in_singleton_false (c : N) (s : str) :
  c ∉ s -> str_in [c] s = false.
Proof.
  induction s as [|d s IH]; [done|]. intros Hs.
  apply not_elem_of_cons in Hs as [Hd Hs]. cbn [str_in startswith].
  rewrite (IH Hs), orb_false_r, andb_true_r. by apply N.eqb_neq.
Qed.

Lemma lstrip_not_elem (c : N) (s : str) : c ∉ s -> c ∉ lstrip s.
Proof.
  induction s as [|d s IH]; [done|]. intros Hs. cbn.
  destruct (isspace d); [|done].
  apply IH. by apply not_elem_of_cons in Hs as [_ Hs].
Qed.

Lemma elem_of_rev (c : N) (s : str) : c ∈ rev s <-> c ∈ s.
Proof. rewrite !list_elem_of_In. symmetry. apply in_rev. Qed.

Lemma strip_not_elem (c : N) (s : str) : c ∉ s -> c ∉ strip s.
Proof.
  intros Hs. unfold strip, rstrip.
  rewrite elem_of_rev. apply lstrip_not_elem.
  rewrite elem_of_rev. by apply lstrip_not_elem.
Qed.

Lemma replace_aux_no_occurrence (old new s : str) :
  str_in old s = false -> replace_aux old new 0 s = s.
Proof.
  induction s as [|c s IH]; [done|]. intros Hno.
  cbn [str_in] in Hno. apply orb_false_iff in Hno as [Hhere Hlater].
  cbn [replace_aux]. by rewrite Hhere, (IH Hlater).
Qed.

(** On parts without a newline, [_ok] holds exactly when both parts are
    non-empty after trimming. *)
Lemma _ok_trimmed (k v : str) :
  Re.newline ∉ k -> Re.newline ∉ v ->
  _ok k v = truthy (strip k) && truthy (strip v).
Proof.
  intros Hk Hv. unfold _ok, replace.
  rewrite !replace_aux_no_occurrence
    by (by apply str_in_singleton_false, strip_not_elem).
  assert (Hempty : forall s : str,
            negb (truthy s) || eqb (strip s) [] = negb (truthy (strip s))).
  { intros [|c s]; [done|]. cbn [truthy negb orb]. unfold eqb.
    by destruct (strip (c :: s)). }
  rewrite !Hempty. by destruct (truthy (strip k)), (truthy (strip v)).
Qed.

(** C4, as stated, fails on a text with two question marks: the split is
    made at the last one, not at the first. *)
Lemma question_answer_from_text_counterexample :
  Re.split_at_first_question_mark (py "a?b?c") = Some (py "a", py "b?c") /\
  question_answer_from_text (py "a?b?c") !! py "a" = None /\
  question_answer_from_text (py "a?b?c") !! py "a?b" = Some (py "c").
Proof.
  repeat split.
Qed.

(** C4, amended: [question_answer_from_text] splits every line of the text
    at the last question mark (ASCII or Arabic) of that line and keeps the
    trimmed pair when both parts are non-empty after trimming. So a
    one-line text is split at its last question mark, a text with no
    question mark gives no pair, and "What time?Answer here" gives the
    question "What time" with the answer "Answer here". *)
Theorem question_answer_from_text_last_mark :
  (forall text : str,
     question_answer_from_text text
     = dict_of (map (fun kv => (strip kv.1, strip kv.2))
                    (List.filter (fun kv => _ok kv.1 kv.2)
                       (omap Re.split_at_last_question_mark
                             (split text [Re.newline]))))) /\
  (forall (q a : str) (m : N),
     Re.newline ∉ q -> Re.newline ∉ a ->
     Re.is_question_mark m = true ->
     Forall (fun c => Re.is_question_mark c = false) a ->
     question_answer_from_text (q ++ m :: a)
     = if truthy (strip q) && truthy (strip a)
       then {[ strip q := strip a ]} else ∅) /\
  (forall text : str,
     Forall (fun c => Re.is_question_mark c = false) text ->
     question_answer_from_text text = ∅) /\
  question_answer_from_text (py "What time?Answer here")
  = {[ py "What time" := py "Answer here" ]}.
Proof.
  assert (Hlines : forall text : str,
     question_answer_from_text text
     = dict_of (map (fun kv => (strip kv.1, strip kv.2))
                    (List.filter (fun kv => _ok kv.1 kv.2)
                       (omap Re.split_at_last_question_mark
                             (split text [Re.newline]))))).
  { intros text. unfold question_answer_from_text. by rewrite findall_lines. }
  assert (Hone : forall (q a : str) (m : N),
     Re.newline ∉ q -> Re.newline ∉ a ->
     Re.is_question_mark m = true ->
     Forall (fun c => Re.is_question_mark c = false) a ->
     question_answer_from_text (q ++ m :: a)
     = if truthy (strip q) && truthy (strip a)
       then {[ strip q := strip a ]} else ∅).
  { intros q a m Hq Ha Hm Hrest. rewrite <- (_ok_trimmed q a Hq Ha).
    rewrite Hlines. unfold split.
    rewrite split_aux_no_occurrence.
    2:{ apply str_in_singleton_false. intros Hin.
        apply elem_of_app in Hin as [Hin | Hin]; [done|].
        apply elem_of_cons in Hin as [Heq | Hin]; [|done].
        rewrite <- Heq in Hm. discriminate Hm. }
    cbn [app omap list_omap]. rewrite (split_at_last_app q a m Hm Hrest).
    cbn [List.filter fst snd]. destruct (_ok q a); cbn; [|done].
    unfold dict_of, insert_all. cbn. apply insert_empty. }
  split; [exact Hlines|]. split; [exact Hone|]. split.
  - intros text Hno. rewrite Hlines.
    pose proof (split_aux_newline_Forall _ text [] Hno) as Hpieces.
    unfold split. induction Hpieces as [|line ls Hline _ IH]; [done|].
    cbn [omap list_omap]. by rewrite (split_at_last_none line Hline).
  - exact (Hone (py "What time") (py "Answer here") 63%N
             ltac:(by apply not_elem_of_forallb)
             ltac:(by apply not_elem_of_forallb)
             eq_refl
             ltac:(repeat constructor)).
Qed.

(** The example of the specification, and a text with two question marks. *)
Lemma question_answer_from_text_last_mark_witness :
  question_answer_from_text (py "a?b?c") = {[ py "a?b" := py "c" ]} /\
  question_answer_from_text (py "no question here") = ∅.
Proof.
  destruct question_answer_from_text_last_mark as (_ & Hone & Hnone & _).
  split.
  - apply (Hone (py "a?b") (py "c") 63%N).
    + by apply not_elem_of_forallb.
    + by apply not_elem_of_forallb.
    + reflexivity.
    + repeat constructor.
  - apply (Hnone (py "no question here")). repeat constructor.
Defined.

(** * Further properties *)

(** ** The URL utilities, continued *)

Lemma elem_of_schemes (sch : str) :
  sch ∈ [py "https://"; py "http://"] ->
  sch = py "https://" \/ sch = py "http://".
Proof.
  intros Hsch. apply elem_of_cons in Hsch as [-> | Hsch]; [by left|].
  apply list_elem_of_singleton in Hsch as ->. by right.
Qed.

(** After a scheme prefix, [drop_scheme] leaves the rest of the URL when
    the rest holds no scheme prefix of its own. *)
Lemma drop_scheme_body (sch body : str) :
  sch ∈ [py "https://"; py "http://"] ->
  str_in (py "https://") body = false ->
  str_in (py "http://") body = false ->
  Http.drop_scheme (sch ++ body) = Ok body.
Proof.
  intros Hsch Hhttps Hhttp. unfold Http.drop_scheme, split.
  destruct (elem_of_schemes _ Hsch) as [-> | ->].
  - cbn. by rewrite (split_aux_no_occurrence _ _ _ Hhttps).
  - rewrite (split_aux_no_occurrence (py "https://") [] (py "http://" ++ body))
      by (cbn; exact Hhttps).
    cbn. by rewrite (split_aux_no_occurrence _ _ _ Hhttp).
Qed.

(** X1: on "https://" or "http://" followed by a host and path segments
    joined by slashes, [is_url_root] looks at the first segment only: the
    answer is [True] when there is no segment or the first one is empty,
    whatever follows, and [False] otherwise. *)
Theorem is_url_root_first_segment (sch host : str) (segs : list str) :
  sch ∈ [py "https://"; py "http://"] ->
  Forall (fun s => 47%N ∉ s) (host :: segs) ->
  str_in (py "https://") (host ++ concat (map (cons 47%N) segs)) = false ->
  str_in (py "http://") (host ++ concat (map (cons 47%N) segs)) = false ->
  Http.is_url_root (sch ++ host ++ concat (map (cons 47%N) segs))
  = Ok match segs with
       | [] => true
       | seg :: _ => eqb seg []
       end.
Proof.
  intros Hsch Hall Hhttps Hhttp. unfold Http.is_url_root.
  replace (str_in (py "http") (sch ++ host ++ concat (map (cons 47%N) segs)))
    with true by (by destruct (elem_of_schemes _ Hsch) as [-> | ->]).
  rewrite (drop_scheme_body _ _ Hsch Hhttps Hhttp). cbn [mbind res_bind].
  unfold split. change (py "/") with [47%N].
  rewrite (split_aux_slash_join segs host [] Hall).
  destruct segs as [|seg segs]; [reflexivity|].
  cbn. by destruct (eqb seg []).
Qed.

(** A bare host, a trailing slash, a path, and a path after a double
    slash. *)
Lemma is_url_root_first_segment_witness :
  Http.is_url_root (py "https://example.com") = Ok true /\
  Http.is_url_root (py "http://example.com/") = Ok true /\
  Http.is_url_root (py "https://example.com/a") = Ok false /\
  Http.is_url_root (py "https://example.com//a") = Ok true.
Proof.
  split; [|split; [|split]].
  - apply (is_url_root_first_segment (py "https://") (py "example.com") []);
      [left | repeat constructor; by apply not_elem_of_forallb | done | done].
  - apply (is_url_root_first_segment (py "http://") (py "example.com") [py ""]);
      [right; left | repeat constructor; by apply not_elem_of_forallb
      | done | done].
  - apply (is_url_root_first_segment (py "https://") (py "example.com") [py "a"]);
      [left | repeat constructor; by apply not_elem_of_forallb | done | done].
  - apply (is_url_root_first_segment (py "https://") (py "example.com")
             [py ""; py "a"]);
      [left | repeat constructor; by apply not_elem_of_forallb | done | done].
Defined.

(** X2: a string that contains "http" but neither "https://" nor "http://"
    makes both utilities raise [IndexError]: the second [split(...)[1]] is
    not guarded. *)
Theorem url_utilities_index_error (url : str) (root : bool) :
  str_in (py "http") url = true ->
  str_in (py "https://") url = false ->
  str_in (py "http://") url = false ->
  Http.is_url_root url = Raise IndexError /\
  Http.url_spliter url root = Raise IndexError.
Proof.
  intros Hin Hhttps Hhttp.
  assert (Hdrop : Http.drop_scheme url = Raise IndexError).
  { unfold Http.drop_scheme, split.
    by rewrite (split_aux_no_occurrence _ [] _ Hhttps),
               (split_aux_no_occurrence _ [] _ Hhttp). }
  unfold Http.is_url_root, Http.url_spliter. by rewrite Hin, Hdrop.
Qed.

Lemma url_utilities_index_error_witness :
  Http.is_url_root (py "httpx.org/a") = Raise IndexError /\
  Http.url_spliter (py "httpx.org/a") false = Raise IndexError.
Proof.
  apply (url_utilities_index_error (py "httpx.org/a") false); reflexivity.
Defined.

(** ** The structured-data extractor, continued *)

Lemma application_json_chosen `{Collaborators} (self : EzSoupHelper.t)
    (i : nat) (tag : node) :
  all_json_tags self !! i = Some tag ->
  (forall j u, all_json_tags self !! j = Some u ->
               content_len u <= content_len tag) ->
  (forall j u, all_json_tags self !! j = Some u -> i < j ->
               content_len u < content_len tag) ->
  application_json self = loads_contents tag.
Proof.
  intros Hi Hmax Hafter.
  pose proof (index_last_sorted_ok _ _ _
                (last_sorted_unique content_len _ i tag Hi Hmax Hafter)) as Htag.
  unfold application_json.
  destruct (all_json_tags self) as [|a l] eqn:Htags; [done|].
  by rewrite Htag.
Qed.

(** X4: when the page has no JSON-LD block, or every block is empty (no
    child, or an empty text first), [application_json] is [None] and the
    key search returns the empty list; [json.loads] is not called, so
    nothing can be raised. *)
Theorem application_json_empty_blocks `{Collaborators} (self : EzSoupHelper.t)
    (key : str) :
  Forall (fun t => contents_of t = [] \/
                   exists cls rest, contents_of t = NavigableString cls [] :: rest)
         (all_json_tags self) ->
  application_json self = Ok None /\
  from_json_schema self key = Ok [].
Proof.
  intros Hempty.
  assert (Happ : application_json self = Ok None).
  { destruct (all_json_tags self) as [|a l] eqn:Htags.
    { unfold application_json. by rewrite Htags. }
    destruct (last_sorted_spec content_len (a :: l) ltac:(done))
      as (i & tag & Hi & _ & Hmax & Hafter).
    rewrite <- Htags in Hi, Hmax, Hafter.
    rewrite (application_json_chosen self i tag Hi Hmax Hafter).
    rewrite Htags in Hi. apply list_elem_of_lookup_2 in Hi.
    rewrite Forall_forall in Hempty. specialize (Hempty tag Hi).
    unfold loads_contents. by destruct Hempty as [-> | (cls & rest & ->)]. }
  split; [exact Happ|]. unfold from_json_schema. by rewrite Happ.
Qed.

Lemma application_json_empty_blocks_witness :
  application_json (H := collaborators 0) plain_page = Ok None /\
  from_json_schema (H := collaborators 0) plain_page (py "name") = Ok [].
Proof.
  apply (application_json_empty_blocks (H := collaborators 0) plain_page
           (py "name")).
  constructor.
Defined.

(** X5: when the chosen block (the longest, the last among equally long
    ones) starts with a non-empty text, [application_json] returns what
    [json.loads] returns on that text, value or error, and the key search
    runs on that value. *)
Theorem application_json_loads `{Collaborators} (self : EzSoupHelper.t)
    (i : nat) (tag : node) (cls : string_class) (s : str)
    (rest : list node) (key : str) :
  all_json_tags self !! i = Some tag ->
  (forall j u, all_json_tags self !! j = Some u ->
               content_len u <= content_len tag) ->
  (forall j u, all_json_tags self !! j = Some u -> i < j ->
               content_len u < content_len tag) ->
  contents_of tag = NavigableString cls s :: rest ->
  s <> [] ->
  application_json self = Some <$> json_loads s /\
  from_json_schema self key = (fun v => extract v key) <$> json_loads s.
Proof.
  intros Hi Hmax Hafter Hcontents Hs.
  assert (Happ : application_json self = Some <$> json_loads s).
  { rewrite (application_json_chosen self i tag Hi Hmax Hafter).
    unfold loads_contents. rewrite Hcontents.
    destruct s as [|c s]; [done|]. cbn [truthy andb]. unfold eqb.
    by rewrite bool_decide_eq_false_2. }
  split; [exact Happ|]. unfold from_json_schema. rewrite Happ.
  by destruct (json_loads s).
Qed.

(** Of the blocks "1" and "2" the second is loaded. *)
Lemma application_json_loads_witness :
  application_json (H := collaborators 0) tied_page
    = Some <$> json_loads (Collaborators := collaborators 0) (py "2") /\
  from_json_schema (H := collaborators 0) tied_page (py "name")
    = (fun v => extract v (py "name"))
        <$> json_loads (Collaborators := collaborators 0) (py "2").
Proof.
  assert (Hmax : forall j u,
            all_json_tags tied_page !! j = Some u ->
            content_len u <= content_len (json_ld "2")).
  { intros [|[|[|j]]] u Hj; vm_compute in Hj; [| |discriminate Hj..];
      injection Hj as <-; vm_compute; lia. }
  assert (Hafter : forall j u,
            all_json_tags tied_page !! j = Some u -> 1 < j ->
            content_len u < content_len (json_ld "2")).
  { intros [|[|[|j]]] u Hj Hlt; [lia | lia | vm_compute in Hj; discriminate Hj..]. }
  exact (application_json_loads (H := collaborators 0) tied_page 1
           (json_ld "2") Script (py "2") [] (py "name")
           eq_refl Hmax Hafter eq_refl ltac:(discriminate)).
Defined.

(** X6: the key search never returns a dict or a list: a value that is a
    dict or a list is searched, not collected, even under the key looked
    for. *)
Theorem _json_extract_scalars (obj : option json) (key : str) :
  Forall is_scalar (_json_extract obj key) /\
  forall (items : list (str * json)) (items' : list json),
    extract (JDict [(key, JDict items)]) key = extract (JDict items) key /\
    extract (JDict [(key, JList items')]) key = extract (JList items') key.
Proof.
  split.
  - destruct obj as [o|]; [|constructor]. cbn [_json_extract].
    revert o. fix IH 1.
    intros [| b | l | s | items | items]; cbn [extract]; try constructor.
    + induction items as [|item items IHitems]; [constructor|].
      apply Forall_app. split; [apply IH | exact IHitems].
    + induction items as [|[k v] items IHitems]; [constructor|].
      apply Forall_app. split; [|exact IHitems].
      pose proof (IH v) as Hv.
      destruct v as [| b | l | s | vs | vs]; try exact Hv;
        destruct (eqb k key); by repeat constructor.
  - intros items items'. cbn [extract]. by rewrite !app_nil_r.
Qed.

(** ** The tabular-data extractor, continued *)

(** X7: a row without [th] cells or without [td] cells gives the empty
    mapping; so the head row of a table contributes an empty entry. *)
Theorem row_dict_empty `{Collaborators} (row : node) :
  find_all row (py "th") [] = [] \/ find_all row (py "td") [] = [] ->
  row_dict row = ∅.
Proof.
  intros [Hheads | Hcells]; unfold row_dict; [rewrite Hheads | by rewrite Hcells].
  cbn [map]. by induction (find_all row (py "td") []).
Qed.

Lemma row_dict_empty_witness :
  row_dict (H := collaborators 0) head_row = ∅ /\
  row_dict (H := collaborators 0) cell_row = ∅.
Proof.
  split.
  - apply (row_dict_empty (H := collaborators 0) head_row). by right.
  - apply (row_dict_empty (H := collaborators 0) cell_row). by left.
Defined.

(** ** The site name *)

Lemma or_else_falsy (a b : option str) : falsy a -> or_else a b = b.
Proof. by intros [-> | ->]. Qed.

(** X8: the Open Graph site name, when it is not empty, is the site name
    whatever the other hints are; an absent or empty one gives way to a
    non-empty Twitter creator. In both cases the navigation bar plays no
    part. *)
Theorem site_name_priority `{Collaborators} (self : EzSoupHelper.t) :
  (forall (c : N) (og : str),
     meta_og_content self (py "site_name") = Some (c :: og) ->
     site_name self = clean_title (Some (c :: og))) /\
  (forall (c : N) (tw : str),
     falsy (meta_og_content self (py "site_name")) ->
     meta_content self (py "name") (py "twitter:creator") = Some (c :: tw) ->
     site_name self = clean_title (Some (c :: tw))).
Proof.
  split.
  - intros c og Hog. unfold site_name. by rewrite Hog.
  - intros c tw Hog Htw. unfold site_name.
    by rewrite (or_else_falsy _ _ Hog), Htw.
Qed.

Lemma site_name_priority_witness :
  site_name (H := collaborators 0) branded_page = Some (py "Example") /\
  site_name (H := collaborators 0) branded_page
    = clean_title (Collaborators := collaborators 0) (Some (py "Example")).
Proof.
  split; [reflexivity|].
  destruct (site_name_priority (H := collaborators 0) branded_page) as [Hog _].
  apply (Hog 69%N (py "xample")). reflexivity.
Defined.

(** X9: with no usable meta tag, the [alt] text of the first image of the
    first [nav] is the site name exactly when its transliteration scores
    at least 15 against the name of the domain; the text returned is the
    original one, not the transliteration. *)
Theorem site_name_from_logo `{Collaborators} (self : EzSoupHelper.t)
    (nav img : node) (c : N) (alt : str) :
  falsy (meta_og_content self (py "site_name")) ->
  falsy (meta_content self (py "name") (py "twitter:creator")) ->
  first self (py "nav") [] = Some nav ->
  find nav (py "img") [(py "alt", AttrPresent)] = Some img ->
  get img (py "alt") = Some (c :: alt) ->
  site_name self
  = clean_title
      (if (15 <=? similarity_of (unidecode (c :: alt))
                                (Some (name_from_url (url self))))%Z
       then Some (c :: alt) else None).
Proof.
  intros Hog Htw Hnav Himg Halt. unfold site_name.
  rewrite Hnav, Himg, Halt, (or_else_falsy _ _ Hog), (or_else_falsy _ _ Htw).
  by destruct (15 <=? _)%Z.
Qed.

(** The logo is believed at a score of 15 and not at 14. *)
Lemma site_name_from_logo_witness :
  site_name (H := collaborators 15) logo_page = Some (py "Example logo") /\
  site_name (H := collaborators 14) logo_page = None.
Proof.
  split.
  - exact (site_name_from_logo (H := collaborators 15) logo_page
             (el "nav" [] [el "img" [("alt", "Example logo")%string] []])
             (el "img" [("alt", "Example logo")%string] [])
             69%N (py "xample logo")
             (or_introl eq_refl) (or_introl eq_refl) eq_refl eq_refl eq_refl).
  - exact (site_name_from_logo (H := collaborators 14) logo_page
             (el "nav" [] [el "img" [("alt", "Example logo")%string] []])
             (el "img" [("alt", "Example logo")%string] [])
             69%N (py "xample logo")
             (or_introl eq_refl) (or_introl eq_refl) eq_refl eq_refl eq_refl).
Defined.

(** ** The topic extractor, continued *)

Lemma find_all_named (n : node) (tag_name : str)
    (attrs : list (str * attr_filter)) :
  Forall (fun d => is_named tag_name d = true) (find_all n tag_name attrs).
Proof.
  apply Forall_forall. intros d Hd. unfold find_all in Hd.
  apply list_elem_of_In, filter_In in Hd as [_ Hd].
  by apply andb_true_iff in Hd as [Hd _].
Qed.

(** X10: every candidate of the topic extractor is an [a] element,
    whichever container it comes from. *)
Theorem possible_topic_tags_anchors (self : EzSoupHelper.t) :
  Forall (fun d => is_named (py "a") d = true) (possible_topic_tags self).
Proof.
  unfold possible_topic_tags. apply Forall_app. split.
  - unfold links_in.
    induction (breads self ++ class_maybe self) as [|el els IH]; [constructor|].
    cbn [flat_map]. apply Forall_app. split; [apply find_all_named | exact IH].
  - unfold article_ul_a.
    destruct (match first self (py "article") [] with
              | Some a => find a (py "ul") []
              | None => None
              end); [apply find_all_named | constructor].
Qed.

(** ** The address extractor, continued *)

Lemma index_last_cons {A} (x : A) (l : list A) :
  exists y, index_last (x :: l) = Ok y.
Proof.
  unfold index_last. destruct (last (x :: l)) as [y|] eqn:Hlast; [by exists y|].
  by apply last_None in Hlast.
Qed.

(** X11: the only error [address] can raise is the [IndexError] of
    [self.all("footer")[-1]], and only on a page without a [footer]: with
    a footer it always returns. *)
Theorem address_raises_only_without_footer `{Collaborators}
    (self : EzSoupHelper.t) (e : exn) :
  address self = Raise e ->
  e = IndexError /\ all self (py "footer") [] = [].
Proof.
  unfold address.
  destruct (match all self (py "address") [] with
            | [] => None
            | _ :: _ => head (_texts_of (all self (py "address") []))
            end); [done|].
  destruct (flat_map _ classes); [|done].
  destruct (all self (py "footer") []) as [|f fs]; [by intros [= <-]|].
  destruct (index_last_cons f fs) as [y ->]. done.
Qed.

Lemma address_raises_only_without_footer_witness :
  IndexError = IndexError /\ all plain_page (py "footer") [] = [].
Proof.
  apply (address_raises_only_without_footer (H := collaborators 0) plain_page).
  reflexivity.
Defined.

(** X12: an [address] element with a text wins over everything else: its
    cleaned text is returned and the footers are not looked at, so the
    page needs none. *)
Theorem address_from_address_tag `{Collaborators} (self : EzSoupHelper.t)
    (x : str) (rest : list str) :
  all self (py "address") [] <> [] ->
  _texts_of (all self (py "address") []) = x :: rest ->
  address self = Ok (Some x).
Proof.
  intros Htags Htexts. unfold address. rewrite Htexts.
  by destruct (all self (py "address") []).
Qed.

Lemma address_from_address_tag_witness :
  address (H := collaborators 0) address_page = Ok (Some (py "1 Main Street")) /\
  all address_page (py "footer") [] = [].
Proof.
  split; [|reflexivity].
  apply (address_from_address_tag (H := collaborators 0) address_page
           (py "1 Main Street") []).
  - discriminate.
  - reflexivity.
Defined.

(** ** The FAQ splitter, continued *)

Lemma insert_all_lookup `{Countable K} {V} (items : list (K * V))
    (m : gmap K V) (k : K) (v : V) :
  insert_all items m !! k = Some v -> (k, v) ∈ items \/ m !! k = Some v.
Proof.
  revert m. induction items as [|[k0 v0] items IH]; intros m; [by right|].
  cbn [insert_all fold_left]. intros Hlook.
  destruct (IH _ Hlook) as [Hin | Hm]; [left; by right|].
  cbn [fst snd] in Hm. destruct (decide (k0 = k)) as [-> | Hne].
  - rewrite lookup_insert_eq in Hm. injection Hm as ->. left. left.
  - rewrite lookup_insert_ne in Hm by done. by right.
Qed.

Lemma _ok_strip_nonempty (k v : str) :
  _ok k v = true -> strip k <> [] /\ strip v <> [].
Proof.
  unfold _ok, eqb. intros Hok. split; intros Hnil; rewrite Hnil in Hok;
    cbn in Hok; rewrite orb_true_r in Hok; try done.
  by destruct (_ || _).
Qed.

Lemma split_at_last_after (line before after : str) :
  Re.split_at_last_question_mark line = Some (before, after) ->
  Forall (fun c => Re.is_question_mark c = false) after.
Proof.
  revert before. induction line as [|c line IH]; intros before; cbn; [done|].
  destruct (Re.split_at_last_question_mark line) as [[b a]|] eqn:Hsplit.
  - intros [= <- <-]. by apply (IH b).
  - destruct (Re.is_question_mark c); [|done]. intros [= <- <-].
    clear IH. induction line as [|d line IH]; [constructor|].
    cbn in Hsplit.
    destruct (Re.split_at_last_question_mark line) as [[b a]|]; [done|].
    destruct (Re.is_question_mark d) eqn:Hd; [done|].
    constructor; [done | by apply IH].
Qed.

Lemma Forall_lstrip (P : N -> Prop) (s : str) : Forall P s -> Forall P (lstrip s).
Proof.
  induction 1 as [|c s Hc Hs IH]; cbn; [constructor|].
  destruct (isspace c); [exact IH | by constructor].
Qed.

Lemma Forall_strip (P : N -> Prop) (s : str) : Forall P s -> Forall P (strip s).
Proof.
  intros Hs. unfold strip, rstrip.
  apply Forall_rev, Forall_lstrip, Forall_rev, Forall_lstrip, Hs.
Qed.

(** X13: in the mapping of [question_answer_from_text] no question and no
    answer is empty, and no answer holds a question mark (the split is at
    the last one of the line). *)
Theorem question_answer_from_text_pairs (text k v : str) :
  question_answer_from_text text !! k = Some v ->
  k <> [] /\ v <> [] /\ Forall (fun c => Re.is_question_mark c = false) v.
Proof.
  unfold question_answer_from_text, dict_of. intros Hlook.
  apply insert_all_lookup in Hlook as [Hin | Hempty];
    [|by rewrite lookup_empty in Hempty].
  apply list_elem_of_In, in_map_iff in Hin as ([k0 v0] & [= <- <-] & Hin).
  apply filter_In in Hin as [Hin Hok]. cbn [fst snd] in *.
  destruct (_ok_strip_nonempty _ _ Hok) as [Hk Hv].
  split; [exact Hk|]. split; [exact Hv|].
  rewrite findall_lines in Hin.
  apply list_elem_of_In, list_elem_of_omap in Hin as (line & _ & Hline).
  apply Forall_strip. exact (split_at_last_after _ _ _ Hline).
Qed.

Lemma question_answer_from_text_pairs_witness :
  py "a?b" <> [] /\ py "c" <> [] /\
  Forall (fun c => Re.is_question_mark c = false) (py "c").
Proof.
  apply (question_answer_from_text_pairs (py "a?b?c") (py "a?b") (py "c")).
  reflexivity.
Defined.

(** ** The link resolver, continued *)

(** X14: for an anchor that has no text child equal to "http" and whose
    [href] contains "http", on a page whose URL [urlparse] accepts: without
    the internal-only flag the [href] is returned as it is; with the flag
    the [href] is parsed, an error of [urlparse] on it is raised, and
    otherwise the [href] is returned when its network location equals
    that of the page once every "www." is removed from both, and [None]
    when they differ. *)
Theorem absolute_href_of_absolute `{Collaborators} (self : EzSoupHelper.t)
    (attrs : list (str * str)) (cs : list node) (link : str)
    (parts : url_parts) :
  tag_contains (py "http") (Tag (py "a") attrs cs) = false ->
  lookup_attr (py "href") attrs = Some link ->
  str_in (py "http") link = true ->
  urlparse (url self) = Ok parts ->
  absolute_href_of self (SourceTag (Tag (py "a") attrs cs)) false
    = Ok (Some link) /\
  absolute_href_of self (SourceTag (Tag (py "a") attrs cs)) true
    = (link_parts ← urlparse link;
       Ok (if eqb (replace (netloc link_parts) (py "www.") [])
                  (replace (netloc parts) (py "www.") [])
           then Some link else None)).
Proof.
  intros Hchild Hhref Habs Hurl. unfold absolute_href_of.
  rewrite Hchild.
  replace (bool_decide (py "a" ∈ [py "a"; py "link"])) with true
    by (symmetry; apply bool_decide_eq_true; left).
  cbn [negb andb get]. rewrite Hhref.
  destruct link as [|c link]; [done|].
  rewrite Hurl. cbn [mbind res_bind]. rewrite Habs.
  split; [done|]. destruct (urlparse (c :: link)) as [lp|e]; [|done].
  cbn [mbind res_bind]. by destruct (eqb _ _).
Qed.

(** A link to another site, a link to the www. host of the page, and a
    link that [urlparse] rejects. *)
Lemma absolute_href_of_absolute_witness :
  absolute_href_of (H := collaborators 0) plain_page
      (SourceTag (anchor "https://other.com/x")) false
    = Ok (Some (py "https://other.com/x")) /\
  absolute_href_of (H := collaborators 0) plain_page
      (SourceTag (anchor "https://other.com/x")) true
    = Ok None /\
  absolute_href_of (H := collaborators 0) plain_page
      (SourceTag (anchor "http://www.example.com/y")) true
    = Ok (Some (py "http://www.example.com/y")) /\
  absolute_href_of (H := collaborators 0) plain_page
      (SourceTag (anchor "http://[bad/y")) true
    = Raise ValueError.
Proof.
  destruct (absolute_href_of_absolute (H := collaborators 0) plain_page
              [(py "href", py "https://other.com/x")] []
              (py "https://other.com/x")
              {| scheme := py "https"; netloc := py "example.com" |}
              eq_refl eq_refl eq_refl eq_refl) as [Hfree Hinternal].
  destruct (absolute_href_of_absolute (H := collaborators 0) plain_page
              [(py "href", py "http://www.example.com/y")] []
              (py "http://www.example.com/y")
              {| scheme := py "https"; netloc := py "example.com" |}
              eq_refl eq_refl eq_refl eq_refl) as [_ Hwww].
  destruct (absolute_href_of_absolute (H := collaborators 0) plain_page
              [(py "href", py "http://[bad/y")] []
              (py "http://[bad/y")
              {| scheme := py "https"; netloc := py "example.com" |}
              eq_refl eq_refl eq_refl eq_refl) as [_ Hbad].
  split; [exact Hfree|]. split; [exact Hinternal|].
  split; [exact Hwww | exact Hbad].
Defined.

Lemma not_elem_of_strs (x : str) (l : list str) :
  forallb (fun y => negb (eqb x y)) l = true -> x ∉ l.
Proof.
  induction l as [|y l IH]; cbn; [intros _; apply not_elem_of_nil|].
  intros Hall. apply andb_true_iff in Hall as [Hy Hl].
  apply not_elem_of_cons. split; [|auto].
  apply negb_true_iff in Hy. by apply bool_decide_eq_false in Hy.
Qed.

(** X15: for an element that is neither [a] nor [link], and for an [a] or
    [link] with a text child equal to "http", the reference is [src], or
    [data-src] when there is no [src]; [href] is not read. The result is
    that of a plain anchor whose [href] is that reference. *)
Theorem absolute_href_of_src `{Collaborators} (self : EzSoupHelper.t)
    (name : str) (attrs : list (str * str)) (cs : list node)
    (should_be_internal : bool) :
  name ∉ [py "a"; py "link"]
    \/ tag_contains (py "http") (Tag name attrs cs) = true ->
  absolute_href_of self (SourceTag (Tag name attrs cs)) should_be_internal
  = match match lookup_attr (py "src") attrs with
          | Some v => Some v
          | None => lookup_attr (py "data-src") attrs
          end with
    | Some v =>
        absolute_href_of self (SourceTag (Tag (py "a") [(py "href", v)] []))
                         should_be_internal
    | None => Ok None
    end.
Proof.
  intros Hother. unfold absolute_href_of.
  replace (bool_decide (name ∈ [py "a"; py "link"])
           && negb (tag_contains (py "http") (Tag name attrs cs))) with false.
  2:{ destruct Hother as [Hname | ->].
      - by rewrite bool_decide_eq_false_2.
      - by rewrite andb_false_r. }
  cbn [get].
  destruct (match lookup_attr (py "src") attrs with
            | Some v => Some v
            | None => lookup_attr (py "data-src") attrs
            end) as [v|]; [|done].
  replace (bool_decide (py "a" ∈ [py "a"; py "link"])) with true
    by (symmetry; apply bool_decide_eq_true; left).
  reflexivity.
Qed.

(** An image with a lazy source, and an anchor whose text is "http". *)
Lemma absolute_href_of_src_witness :
  absolute_href_of (H := collaborators 0) plain_page
      (SourceTag (el "img" [("href", "/h"); ("data-src", "/lazy.png")]%string []))
      false
    = Ok (Some (py "https://example.com/lazy.png")) /\
  absolute_href_of (H := collaborators 0) plain_page
      (SourceTag (el "a" [("href", "/h")]%string [txt "http"])) false
    = Ok None.
Proof.
  split.
  - exact (absolute_href_of_src (H := collaborators 0) plain_page (py "img")
             [(py "href", py "/h"); (py "data-src", py "/lazy.png")] [] false
             (or_introl (not_elem_of_strs (py "img") [py "a"; py "link"] eq_refl))).
  - exact (absolute_href_of_src (H := collaborators 0) plain_page (py "a")
             [(py "href", py "/h")] [txt "http"] false (or_intror eq_refl)).
Defined.

(** X16: once a non-empty reference has been read, the URL of the page is
    parsed before the reference is looked at: an error of [urlparse] on it
    is raised for every reference, a fragment included. *)
Theorem absolute_href_of_bad_url `{Collaborators} (self : EzSoupHelper.t)
    (attrs : list (str * str)) (cs : list node) (c : N) (link : str)
    (should_be_internal : bool) (e : exn) :
  tag_contains (py "http") (Tag (py "a") attrs cs) = false ->
  lookup_attr (py "href") attrs = Some (c :: link) ->
  urlparse (url self) = Raise e ->
  absolute_href_of self (SourceTag (Tag (py "a") attrs cs)) should_be_internal
  = Raise e.
Proof.
  intros Hchild Hhref Hurl. unfold absolute_href_of.
  rewrite Hchild.
  replace (bool_decide (py "a" ∈ [py "a"; py "link"])) with true
    by (symmetry; apply bool_decide_eq_true; left).
  cbn [negb andb get]. by rewrite Hhref, Hurl.
Qed.

Lemma absolute_href_of_bad_url_witness :
  absolute_href_of (H := collaborators 0) bracket_page
      (SourceTag (anchor "#section")) false
    = Raise ValueError.
Proof.
  exact (absolute_href_of_bad_url (H := collaborators 0) bracket_page
           [(py "href", py "#section")] [] 35%N (py "section") false ValueError
           eq_refl eq_refl eq_refl).
Defined.

(** ** Number groups *)

Lemma number_loop_kept (nums : list str) :
  Forall (fun n => is_reversed n = false) nums -> number_loop nums = nums.
Proof.
  induction 1 as [|n nums Hn _ IH]; cbn; [done|]. by rewrite Hn, IH.
Qed.

Lemma number_loop_break (pre post : list str) (n : str) :
  Forall (fun n => is_reversed n = false) pre ->
  is_reversed n = true ->
  number_loop (pre ++ n :: post) = pre ++ [last_piece n ++ first_piece n].
Proof.
  intros Hpre Hn. induction Hpre as [|m pre Hm _ IH]; cbn.
  - by rewrite Hn.
  - by rewrite Hm, IH.
Qed.

(** X18: [_number_groups] returns nothing for an element without text;
    it returns the matches of the pattern unchanged when none is written
    backwards (a hyphen, and a first piece longer than the last one); and
    at the first match written backwards it appends that match with its
    two ends swapped and stops, dropping the matches that follow. *)
Theorem _number_groups_loop `{Collaborators}
    (re_findall : str -> str -> list str) (t : node) (pattern : str) :
  (text t = [] -> _number_groups re_findall t pattern = []) /\
  (text t <> [] ->
   Forall (fun n => is_reversed n = false) (re_findall pattern (number_text t)) ->
   _number_groups re_findall t pattern = re_findall pattern (number_text t)) /\
  (forall (pre post : list str) (n : str),
     text t <> [] ->
     re_findall pattern (number_text t) = pre ++ n :: post ->
     Forall (fun n => is_reversed n = false) pre ->
     is_reversed n = true ->
     _number_groups re_findall t pattern
     = pre ++ [last_piece n ++ first_piece n]).
Proof.
  unfold _number_groups. split; [by intros ->|]. split.
  - intros Htext Hall. destruct (text t); [done|]. by apply number_loop_kept.
  - intros pre post n Htext Hnums Hpre Hn. destruct (text t); [done|].
    cbn [truthy negb]. rewrite Hnums. by apply number_loop_break.
Qed.

(** Three numbers cut at commas, the second one written backwards. *)
Lemma _number_groups_loop_witness :
  _number_groups (H := collaborators 0) comma_findall (el "p" [] []) (py ",") = [] /\
  _number_groups (H := collaborators 0) comma_findall
      (el "p" [] [txt "21-555, 77"]) (py ",")
    = [py "21-555"; py "77"] /\
  _number_groups (H := collaborators 0) comma_findall phone_tag (py ",")
    = [py "21-555"; py "02112345"].
Proof.
  split; [|split].
  - apply (_number_groups_loop (H := collaborators 0) comma_findall
             (el "p" [] []) (py ",")). reflexivity.
  - apply (proj1 (proj2 (_number_groups_loop (H := collaborators 0)
             comma_findall (el "p" [] [txt "21-555, 77"]) (py ","))));
      [discriminate | by repeat constructor].
  - apply (proj2 (proj2 (_number_groups_loop (H := collaborators 0)
             comma_findall phone_tag (py ",")))
             [py "21-555"] [py "77"] (py "12345-021"));
      [discriminate | reflexivity | by repeat constructor | reflexivity].
Defined.

(** ** Topic names *)

Lemma first_occurrences_subset (seen l : list str) (x : str) :
  x ∈ first_occurrences seen l -> x ∈ l.
Proof.
  revert seen. induction l as [|y l IH]; intros seen; cbn; [done|].
  destruct (bool_decide (y ∈ seen)).
  - intros Hx. right. by apply (IH seen).
  - intros Hx. apply elem_of_cons in Hx as [-> | Hx]; [left|right].
    by apply (IH (y :: seen)).
Qed.

(** X19: when the list made from a set holds only elements of the set,
    every topic name is the capitalised trimmed text of a candidate link
    that passed the filter; so no stop word, no text whose lower-cased
    form is longer than 26 characters and no empty text is ever a topic
    name. *)
Theorem possible_topic_names_filtered `{Collaborators}
    (capitalize : str -> str) (self : EzSoupHelper.t) (x : str) :
  (forall (l : list str) (y : str), y ∈ list_of_set l -> y ∈ l) ->
  x ∈ possible_topic_names capitalize self ->
  exists tag,
    tag ∈ possible_topic_tags self /\
    _ok_topic_name self (get_text_strip tag) = true /\
    x = capitalize (get_text_strip tag).
Proof.
  intros Hset Hx. unfold possible_topic_names in Hx.
  apply Hset, list_elem_of_In, in_map_iff in Hx as (name & <- & Hname).
  apply filter_In in Hname as [Hname Hok].
  apply in_map_iff in Hname as (tag & <- & Htag).
  exists tag. by rewrite list_elem_of_In.
Qed.

(** Of the links "home" and "world news" only the second gives a name. *)
Lemma possible_topic_names_filtered_witness :
  possible_topic_names (H := collaborators 0) ascii_capitalize topic_page
    = [py "World news"] /\
  exists tag,
    tag ∈ possible_topic_tags topic_page /\
    _ok_topic_name (H := collaborators 0) topic_page (get_text_strip tag) = true /\
    py "World news" = ascii_capitalize (get_text_strip tag).
Proof.
  split; [reflexivity|].
  apply (possible_topic_names_filtered (H := collaborators 0)
           ascii_capitalize topic_page (py "World news")).
  - intros l y. apply first_occurrences_subset.
  - left.
Defined.

(** ** The topic extractor and the class threshold *)

Lemma filter_length_and_l {A} (p q : A -> bool) (l : list A) :
  length (List.filter (fun x => p x && q x) l) <= length (List.filter p l).
Proof.
  induction l as [|x l IH]; cbn; [lia|].
  destruct (p x), (q x); cbn; lia.
Qed.

Lemma filter_length_and_r {A} (p q : A -> bool) (l : list A) :
  length (List.filter (fun x => p x && q x) l) <= length (List.filter q l).
Proof.
  induction l as [|x l IH]; cbn; [lia|].
  destruct (p x), (q x); cbn; lia.
Qed.

(** X20: a [div] whose class contains both "cat" and "tag" counts twice
    towards the threshold of seven: four such elements are enough for the
    class-based containers to be dropped. *)
Theorem class_maybe_counts_twice (self : EzSoupHelper.t) :
  4 <= length (List.filter
                 (fun d => matches_contains (py "div") (py "class") (py "cat") d
                           && matches_contains (py "div") (py "class") (py "tag") d)
                 (descendants (soup self))) ->
  class_maybe self = [] /\
  possible_topic_tags self = links_in (breads self) ++ article_ul_a self.
Proof.
  intros Hboth.
  assert (Hnil : class_maybe self = []).
  { unfold class_maybe, contains, select_contains. rewrite length_app.
    pose proof (filter_length_and_l
      (matches_contains (py "div") (py "class") (py "cat"))
      (matches_contains (py "div") (py "class") (py "tag"))
      (descendants (soup self))) as Hcat.
    pose proof (filter_length_and_r
      (matches_contains (py "div") (py "class") (py "cat"))
      (matches_contains (py "div") (py "class") (py "tag"))
      (descendants (soup self))) as Htag.
    destruct (Nat.ltb_spec 7
      (length (List.filter (matches_contains (py "div") (py "class") (py "cat"))
                           (descendants (soup self))) +
       length (List.filter (matches_contains (py "div") (py "class") (py "tag"))
                           (descendants (soup self))))); [done | lia]. }
  split; [exact Hnil|].
  unfold possible_topic_tags. rewrite Hnil. by rewrite app_nil_r.
Qed.

Lemma class_maybe_counts_twice_witness :
  class_maybe category_page = [] /\
  possible_topic_tags category_page
  = links_in (breads category_page) ++ article_ul_a category_page.
Proof.
  apply (class_maybe_counts_twice category_page). vm_compute. lia.
Defined.

(** ** The two URL utilities together *)

(** X21: whenever [is_url_root] returns, [url_spliter] returns too, and
    the answer of the first is read off the segments of the second: the
    URL is a root when there is no segment or the first segment is
    empty. *)
Theorem is_url_root_agrees_with_url_spliter (url : str) (b flag : bool) :
  Http.is_url_root url = Ok b ->
  exists children,
    Http.url_spliter url flag = Ok (Http.Children children) /\
    b = match children with
        | [] => true
        | seg :: _ => eqb seg []
        end.
Proof.
  unfold Http.is_url_root, Http.url_spliter.
  destruct (str_in (py "http") url); [|done].
  destruct (Http.drop_scheme url) as [url'|e]; [|done].
  cbn [mbind res_bind]. unfold split.
  destruct (split_aux_cons (py "/") 0 [] url') as (x & l & ->).
  cbn. exists l. split; [done|].
  destruct l as [|seg l]; cbn in *; [by simplify_eq|].
  destruct (eqb seg []); cbn in *; by simplify_eq.
Qed.

Lemma is_url_root_agrees_with_url_spliter_witness :
  exists children,
    Http.url_spliter (py "https://example.com/a/b") false
      = Ok (Http.Children children) /\
    false = match children with
            | [] => true
            | seg :: _ => eqb seg []
            end.
Proof.
  apply (is_url_root_agrees_with_url_spliter (py "https://example.com/a/b")
           false false).
  reflexivity.
Defined.

(** ** The address extractor and the last footer *)

(** X22: when no [address] element and no footer with an address-like
    class gives a text, the keywords are searched in the last [footer] of
    the page only; the footers before it are not read. *)
Theorem address_searches_last_footer `{Collaborators} (self : EzSoupHelper.t)
    (footers : list node) (footer : node) :
  all self (py "address") [] = [] ->
  Forall (fun c => contains self (py "footer") (py "class") c = []) classes ->
  all self (py "footer") [] = footers ++ [footer] ->
  address self = Ok (search_words footer words).
Proof.
  intros Had Hclasses Hfooters. unfold address. rewrite Had.
  replace (flat_map _ classes) with (@nil node).
  2:{ symmetry. unfold all_contains.
      induction Hclasses as [|c cs Hc _ IH]; [done|].
      cbn [flat_map]. by rewrite Hc, IH. }
  rewrite Hfooters. unfold index_last. by rewrite last_snoc.
Qed.

Lemma address_searches_last_footer_witness :
  address (H := collaborators 0) two_footers_page
    = Ok (search_words (H := collaborators 0) last_footer words) /\
  search_words (H := collaborators 0) last_footer words
    = Some [1582; 1740; 1575; 1576; 1575; 1606; 32; 49]%N.
Proof.
  split; [|reflexivity].
  apply (address_searches_last_footer (H := collaborators 0) two_footers_page
           [first_footer] last_footer).
  - reflexivity.
  - by repeat constructor.
  - reflexivity.
Defined.
